(** * JDD scheduler: a shallow embedding of [JDD_scheduler.py]

    The script reads a table of talks, walks a fixed presentation order,
    lays the talks out one after the other from 09:25 while inserting a
    lunch and a coffee break, prints a console summary and, on
    confirmation, renders the schedule as a LaTeX document.

    Modelling choices:
    - a [datetime] is the number of minutes since 1900-01-01 00:00 (the
      date [strptime] gives to a bare "%H:%M"); the script only ever adds
      whole minutes, so seconds are always zero.  The range of Python's
      [datetime] (years 1 to 9999) is kept: leaving it raises
      [OverflowError];
    - a [str] is a Rocq [string] holding its UTF-8 bytes;
    - the table is typed: a TIME or ONLINE cell is an integer, so
      [int(row["TIME"])] is the identity and a table with a missing
      column or a cell that is not a number is not represented;
    - exceptions are an error monad; the console and the file system are
      an explicit [World] threaded through the driver. *)

From Stdlib Require Import ZArith List String Ascii Bool Lia.
From Stdlib Require Import Decimal DecimalString DecimalZ.
Import ListNotations.

#[local] Open Scope string_scope.
#[local] Open Scope list_scope.
#[local] Open Scope Z_scope.

(** ** Exceptions *)

Inductive exn : Set :=
| IndexError
| OverflowError
| OSError
| EOFError.

Inductive result (A : Type) : Type :=
| Ok (a : A)
| Raise (e : exn).

Arguments Ok {A} a.
Arguments Raise {A} e.

Definition bind {A B : Type} (m : result A) (k : A -> result B) : result B :=
  match m with
  | Ok a => k a
  | Raise e => Raise e
  end.

Notation "x <- m ;; k" := (bind m (fun x => k))
  (at level 61, m at next level, right associativity).
Notation "' p <- m ;; k" := (bind m (fun x => let 'p := x in k))
  (at level 61, p pattern, m at next level, right associativity).

(** ** Times *)

Module Datetime.

(** Minutes since 1900-01-01 00:00. *)
Definition t : Set := Z.

(** [datetime.min] is 0001-01-01 00:00, 693595 days before 1900-01-01;
    the last whole minute of [datetime.max] is 9999-12-31 23:59,
    2958463 days after it. *)
Definition MIN : t := -693595 * 1440.
Definition MAX : t := 2958463 * 1440 + 1439.

Definition in_range (x : Z) : bool := (MIN <=? x) && (x <=? MAX).

(** [datetime.strptime(text, "%H:%M")] for a well-formed text: hour [h]
    and minute [m] of 1900-01-01. *)
Definition strptime_HM (h m : Z) : t := h * 60 + m.

(** [d + timedelta(minutes=m)] *)
Definition add_minutes (d : t) (m : Z) : result t :=
  if in_range (d + m) then Ok (d + m) else Raise OverflowError.

Definition hour (d : t) : Z := (d / 60) mod 24.
Definition minute (d : t) : Z := d mod 60.

End Datetime.

(** ** The table and the schedule *)

(** One row of [JDD_2025.csv]. *)
Record TalkRecord : Set := mkTalk {
  FIRSTNAME : string;
  LASTNAME : string;
  TITLE : string;
  TIME : Z;
  ONLINE : Z
}.

Definition DataFrame : Set := list TalkRecord.

(** [df.iloc[idx]]: positional access; a negative position counts from
    the end of the table, anything outside [-n, n) raises. *)
Definition iloc (df : DataFrame) (idx : Z) : result TalkRecord :=
  let n := Z.of_nat (List.length df) in
  let i := if idx <? 0 then idx + n else idx in
  if (0 <=? i) && (i <? n) then
    match nth_error df (Z.to_nat i) with
    | Some row => Ok row
    | None => Raise IndexError
    end
  else Raise IndexError.

(** The dictionaries of the [schedule] list. *)
Record entry : Set := mkEntry {
  Speaker : string;
  Title : string;
  Start : Datetime.t;
  End_ : Datetime.t;
  ID : Z;
  Online : Z
}.

Definition START_TIME : Datetime.t := Datetime.strptime_HM 9 25.
Definition LUNCH_START : Datetime.t := Datetime.strptime_HM 12 0.
Definition LUNCH_END : Datetime.t := Datetime.strptime_HM 14 0.
Definition COFFEE_START : Datetime.t := Datetime.strptime_HM 15 40.
Definition COFFEE_END : Datetime.t := Datetime.strptime_HM 16 0.

(** The speaking order written in the script. *)
Definition order : list Z := [3; 2; 6; 10; 11; 4; 0; 1; 5; 9; 8; 7].

Definition lunch_break : entry :=
  {| Speaker := "--- Lunch Break ---"; Title := "";
     Start := LUNCH_START; End_ := LUNCH_END; ID := -1; Online := -1 |}.

Definition coffee_break : entry :=
  {| Speaker := "--- Coffee Break ---"; Title := "";
     Start := COFFEE_START; End_ := COFFEE_END; ID := -1; Online := -1 |}.

Definition talk_entry (row : TalkRecord) (idx : Z)
    (current_time end_time : Datetime.t) : entry :=
  {| Speaker := (FIRSTNAME row ++ " " ++ LASTNAME row)%string;
     Title := TITLE row;
     Start := current_time; End_ := end_time;
     ID := idx; Online := ONLINE row |}.

(** ** Building the schedule *)

(** The loop state: the [schedule] list and [current_time]. *)
Definition loop_state : Set := (list entry * Datetime.t)%type.

(** One iteration of [for idx in order]. *)
Definition loop_body (df : DataFrame) (st : loop_state) (idx : Z)
    : result loop_state :=
  let '(schedule, current_time) := st in
  row <- iloc df idx ;;
  let duration := TIME row + 10 in
  end_time <- Datetime.add_minutes current_time duration ;;
  (* Handle lunch break *)
  '(schedule, current_time, end_time) <-
    (if (current_time <=? LUNCH_START) && (end_time >? LUNCH_START) then
       let schedule := schedule ++ [lunch_break] in
       let current_time := LUNCH_END in
       end_time <- Datetime.add_minutes current_time duration ;;
       Ok (schedule, current_time, end_time)
     else Ok (schedule, current_time, end_time)) ;;
  (* Handle coffee break *)
  '(schedule, current_time, end_time) <-
    (if (current_time <=? COFFEE_START) && (end_time >? COFFEE_START) then
       let schedule := schedule ++ [coffee_break] in
       let current_time := COFFEE_END in
       end_time <- Datetime.add_minutes current_time duration ;;
       Ok (schedule, current_time, end_time)
     else Ok (schedule, current_time, end_time)) ;;
  let schedule := schedule ++ [talk_entry row idx current_time end_time] in
  let current_time := end_time in
  Ok (schedule, current_time).

Fixpoint run_loop (df : DataFrame) (order : list Z) (st : loop_state)
    : result loop_state :=
  match order with
  | [] => Ok st
  | idx :: rest => st' <- loop_body df st idx ;; run_loop df rest st'
  end.

(** The schedule the script builds: the loop run from an empty list at
    [START_TIME]. *)
Definition build_schedule (df : DataFrame) (order : list Z)
    : result (list entry) :=
  st <- run_loop df order ([], START_TIME) ;; Ok (fst st).

(** ** Strings *)

Infix "+++" := append (right associativity, at level 60).

Definition LF : string := String "010"%char EmptyString.

(** [needle in hay] *)
Fixpoint contains (needle hay : string) : bool :=
  prefix needle hay ||
  match hay with
  | EmptyString => false
  | String _ rest => contains needle rest
  end.

(** [sep.join(parts)] *)
Fixpoint join (sep : string) (parts : list string) : string :=
  match parts with
  | [] => ""
  | [p] => p
  | p :: rest => p +++ sep +++ join sep rest
  end.

(** A byte of the form 10xxxxxx continues a UTF-8 sequence. *)
Definition is_continuation (c : ascii) : bool :=
  let n := N_of_ascii c in ((128 <=? n) && (n <? 192))%N.

(** The characters of a [str]: the UTF-8 bytes cut before every byte that
    is not a continuation byte. *)
Fixpoint code_points (s : string) : list string :=
  match s with
  | EmptyString => []
  | String c rest =>
    match code_points rest with
    | String d chunk :: more =>
      if is_continuation d then String c (String d chunk) :: more
      else String c EmptyString :: String d chunk :: more
    | more => String c EmptyString :: more
    end
  end.

(** [len(s)] counts characters, not bytes. *)
Definition len (s : string) : nat := List.length (code_points s).

(** [ord(ch)] of one character given by its UTF-8 bytes. *)
Definition ord (ch : string) : N :=
  match ch with
  | EmptyString => 0
  | String c rest =>
    let n := N_of_ascii c in
    let lead := if n <? 128 then n else if n <? 224 then n - 192
                else if n <? 240 then n - 224 else n - 240 in
    fold_left (fun acc b => acc * 64 + (N_of_ascii b - 128))
              (list_ascii_of_string rest) lead
  end%N.

(** [ch.isspace()]: the characters [str.strip()] removes. *)
Definition isspace (ch : string) : bool :=
  let n := ord ch in
  (((9 <=? n) && (n <=? 13)) || ((28 <=? n) && (n <=? 32))
   || (n =? 133) || (n =? 160) || (n =? 5760)
   || ((8192 <=? n) && (n <=? 8202))
   || (n =? 8232) || (n =? 8233) || (n =? 8239) || (n =? 8287)
   || (n =? 12288))%N.

Fixpoint drop_while {A : Type} (p : A -> bool) (l : list A) : list A :=
  match l with
  | [] => []
  | x :: rest => if p x then drop_while p rest else l
  end.

(** [s.strip()] *)
Definition strip (s : string) : string :=
  let chars := drop_while isspace (code_points s) in
  String.concat "" (List.rev (drop_while isspace (List.rev chars))).

Definition lower_ascii (c : ascii) : ascii :=
  let n := N_of_ascii c in
  if ((65 <=? n) && (n <=? 90))%N then ascii_of_N (n + 32) else c.

(** [s.lower()] on the ASCII letters.  Outside ASCII Python lowers more
    characters, but only U+0130 and U+212A lower to text with an ASCII
    letter in it (i and k), so the comparison with "yes" made by the
    script is not affected. *)
Fixpoint lower (s : string) : string :=
  match s with
  | EmptyString => EmptyString
  | String c rest => String (lower_ascii c) (lower rest)
  end.

Fixpoint spaces (n : nat) : string :=
  match n with
  | O => ""
  | S k => String " " (spaces k)
  end.

(** ** Formatting *)

Definition digit (d : Z) : ascii := ascii_of_N (48 + Z.to_N d).

(** A two-digit, zero-padded field such as [%H] or [%M]. *)
Definition two_digits (n : Z) : string :=
  String (digit (n / 10)) (String (digit (n mod 10)) EmptyString).

Definition strftime_H (d : Datetime.t) : string := two_digits (Datetime.hour d).
Definition strftime_M (d : Datetime.t) : string := two_digits (Datetime.minute d).

(** [d.strftime('%H:%M')] *)
Definition strftime_HM (d : Datetime.t) : string :=
  strftime_H d +++ ":" +++ strftime_M d.

(** [str(n)] for an integer. *)
Definition str_of_int (n : Z) : string := NilEmpty.string_of_int (Z.to_int n).

(** [f"{n:3d}"]: right-aligned in at least three columns. *)
Definition format_3d (n : Z) : string :=
  let s := str_of_int n in spaces (3 - len s) +++ s.

(** [f"{s:20s}"]: left-aligned in at least twenty columns. *)
Definition format_20s (s : string) : string := s +++ spaces (20 - len s).

(** ** The console and the file system *)

Record World : Type := mkWorld {
  files : string -> option string;
  writable : string -> bool;
  stdout : string;
  stdin : list string
}.

(** [print(s)] *)
Definition print (s : string) (w : World) : World :=
  {| files := files w; writable := writable w;
     stdout := stdout w +++ s +++ LF; stdin := stdin w |}.

(** [input(prompt)]: the prompt is written without a newline, then one
    line is read; at end of input [EOFError] is raised. *)
Definition input (prompt : string) (w : World) : World * result string :=
  match stdin w with
  | [] =>
    ({| files := files w; writable := writable w;
        stdout := stdout w +++ prompt; stdin := [] |}, Raise EOFError)
  | line :: rest =>
    ({| files := files w; writable := writable w;
        stdout := stdout w +++ prompt; stdin := rest |}, Ok line)
  end.

(** [with open(path, "w", encoding="utf-8") as f: f.write(text)] *)
Definition write_file (path text : string) (w : World) : World * result unit :=
  if writable w path then
    ({| files := fun p => if String.eqb p path then Some text else files w p;
        writable := writable w; stdout := stdout w; stdin := stdin w |},
     Ok tt)
  else (w, Raise OSError).

(** ** The renderer *)

Definition header : string :=
"% JDD Generator
% 11/2025: v0.0: Erwan ZAMORA MEDINA 
% 11/2025: v0.1: Simon KERN
%
\documentclass[11pt,a4paper]{article}
% --- Encoding & language ---
\usepackage[T1]{fontenc}
\usepackage[utf8]{inputenc}
\usepackage[french]{babel}
\usepackage{lmodern}
\usepackage{microtype}
\usepackage[a4paper,margin=20mm]{geometry}
\usepackage{xcolor}
% RED HESAM/CNAM FOR M2N
\definecolor{redHESAM}{RGB}{210,0,37}
\definecolor{brand}{HTML}{0B7BD0} 
\definecolor{brandlight}{HTML}{EAF4FC}
\definecolor{accent}{HTML}{FF7A59} 
%%%%%%%%%%%%%%%%%%%%%%%%%%%%%%%%%%%%%%%%%%%%
%--- Typography & rules ---
\usepackage{titlesec}
\titleformat{\section}
  {\Large\bfseries\color{brand}}
  {\thesection}{1em}{}
\titleformat{\subsection}
  {\large\bfseries\color{brand}}
  {\thesubsection}{1em}{}
\usepackage{enumitem}
\setlist[itemize]{label=\textbullet, leftmargin=1.2em}
%% Beautiful color box :)
\usepackage{tcolorbox}
\tcbuselibrary{skins,breakable}
\usepackage{tabularx}
\usepackage{booktabs}
\usepackage{array}
%%%%%%%%%%%%%%%%%%%%%%%%%%%%%%%%%%%%%%%%%%%%
% --- Logos & header ---
\usepackage{graphicx}
\usepackage{fancyhdr}
\graphicspath{{./} {../} {./logos/}} %Repertoire des images
\newlength\logoh
\setlength{\logoh}{12mm} % logo height (adjust as needed)
\newcommand{\LeftLogo}{}
\newcommand{\RightLogo}{}
\newcommand{\setlogos}[2]{\renewcommand{\LeftLogo}{#1}\renewcommand{\RightLogo}{#2}}
\pagestyle{fancy}
\fancyhf{}
\renewcommand{\headrulewidth}{0pt}
\setlength{\headheight}{18mm} % must be >= logo height
\setlength{\headsep}{1mm}
\lhead{\ifx\LeftLogo\empty\relax\else\includegraphics[height=\logoh]{\LeftLogo}\fi}
\rhead{\ifx\RightLogo\empty\relax\else\includegraphics[height=\logoh]{\RightLogo}\fi}
%%%%%%%%%%%%%%%%%%%%%%%%%%%%%%%%%%%%%%%%%%%%
% Define template boxes s...
\newtcolorbox{eventheader}[1][]{enhanced, colback=brandlight, colframe=brand, boxrule=0.7pt, arc=2mm, left=3mm, right=3mm, top=3mm, bottom=3mm, before skip=6pt, after skip=10pt, breakable, #1}
\newtcolorbox{separatorbox}[1][]{enhanced, colback=brand!6, colframe=brand!40, boxrule=0.5pt, arc=1.6mm, fontupper=\bfseries, left=4mm,right=4mm,top=2.5mm,bottom=2.5mm, before skip=6pt, after skip=6pt, before upper=\centering, #1}
\renewcommand{\titleline}{\par\vspace{2mm}\noindent\color{brand}\rule{\linewidth}{0.9pt}\par\vspace{1mm}}
\newcolumntype{L}{>{\raggedright\arraybackslash}X}
\newcommand{\talk}[4]{\textbf{#1:#2} & \textbf{#3} & \emph{\og #4 \fg}\\}
\newcommand{\onlinetalk}[4]{\textbf{#1:#2} & \textbf{#3} & \emph{\og #4 \fg} \textbf{(online)}\\}
%%%%%%%%%%%%%%%%%%%%%%%%%%%%%%%%%%%%%%%%%%%%
\newcommand{\EventTitle}{Journée des doctorants \the\year\, \textendash\, Planning}
\newcommand{\EventDate}{Lundi 17~novembre~2025} % change as needed
\newcommand{\EventOrg}{DynFluid}                % change as needed
\newcommand{\EventPlace}{Amphi Pinel}           % change as needed
%%%%%%%%%%%%%%%%%%%%%%%%%%%%%%%%%%%%%%%%%%%%
\begin{document}
\setlogos{logos/dynfluid_980.png}{logos/m2n_1.png}
\sffamily

% Title
{\huge\bfseries\color{redHESAM} \EventTitle\par}
\vspace*{-3mm}
\titleline
{\large \EventDate \quad\textcolor{brand}{\textbullet}\quad \EventPlace\par}

% Header info
\begin{eventheader}
\begin{itemize}[nosep]
  \item \textbf{Accueil \EventOrg :} Café — à partir de \textbf{9\,h\,00}
  \item \textbf{Démarrage Teams :} \EventPlace{} — \textbf{9\,h\,25}
\end{itemize}
\end{eventheader}
\renewcommand{\arraystretch}{1.2}
".

Definition footer : string :=
"
\begin{flushright}
\small \textcolor{redHESAM!70}{Content coordinator: J. S. KERN. Artistic director: E. ZAMORA-MEDINA. \today}
\end{flushright}
\end{document}
".

Definition tabularx_open (time_col_width speaker_col_width : string) : string :=
  "\begin{tabularx}{\linewidth}{@{}>{\bfseries}p{" +++ time_col_width
  +++ "} >{\raggedright\arraybackslash}p{" +++ speaker_col_width
  +++ "} X@{}}".

(** The text [ HH\,h\,MM — HH\,h\,MM \quad ] that opens a break line. *)
Definition break_times (s : entry) : string :=
  " " +++ strftime_H (Start s) +++ "\,h\," +++ strftime_M (Start s)
  +++ " — " +++ strftime_H (End_ s) +++ "\,h\," +++ strftime_M (End_ s)
  +++ " \quad ".

(** The lines one pass of [for s in schedule] appends to [latex]. *)
Definition render_entry (time_col_width speaker_col_width : string)
    (s : entry) : list string :=
  if contains "Lunch" (Speaker s) then
    [ "\bottomrule\\[-6mm]";
      "\end{tabularx}" +++ LF;
      "\begin{separatorbox}[colback=accent!10,colframe=accent!50]";
      break_times s +++ "Pause déjeuner";
      "\end{separatorbox}" +++ LF;
      "\noindent\textbf{Après-midi}\par\smallskip";
      tabularx_open time_col_width speaker_col_width;
      "\toprule" ]
  else if contains "Coffee" (Speaker s) then
    [ "\multicolumn{3}{@{}l@{}}{\begin{separatorbox}[colback=brand!6,colframe=brand!30]";
      break_times s +++ "Pause café";
      "\end{separatorbox}}\\[2mm]" ]
  else
    let ttype := if Online s =? 1 then "onlinetalk" else "talk" in
    [ "\" +++ ttype +++ "{" +++ strftime_H (Start s) +++ "}{"
      +++ strftime_M (Start s) +++ "}{" +++ Speaker s +++ "}{"
      +++ Title s +++ "}" ].

Definition schedule_block (time_col_width speaker_col_width : string)
    (schedule : list entry) : list string :=
  [ "%Schedule block";
    "\begin{tcolorbox}[enhanced, breakable, colback=white, colframe=brand!50, boxrule=0.6pt, arc=2mm, left=3mm, right=3mm, top=2mm, bottom=2mm]\vspace{1mm}";
    "\noindent\textbf{Matinée}\par\smallskip";
    tabularx_open time_col_width speaker_col_width;
    "\toprule" ]
  ++ flat_map (render_entry time_col_width speaker_col_width) schedule
  ++ [ "\bottomrule" +++ LF +++ "\end{tabularx}" +++ LF +++ "\vspace{1mm}"
       +++ LF +++ "\end{tcolorbox}" ].

(** [generate_jdd_latex]: the document text, written to [filename] when
    one is given (an empty name counts as none). *)
Definition generate_jdd_latex (schedule : list entry)
    (time_col_width speaker_col_width : string) (filename : option string)
    (w : World) : World * result string :=
  let latex := schedule_block time_col_width speaker_col_width schedule in
  let full_tex := join LF ([header] ++ latex ++ [footer]) in
  match filename with
  | Some (String c name) =>
    match write_file (String c name) full_tex w with
    | (w, Ok _) => (w, Ok full_tex)
    | (w, Raise e) => (w, Raise e)
    end
  | _ => (w, Ok full_tex)
  end.

(** ** The driver *)

(** The text printed for one entry of the summary. *)
Definition summary_line (s : entry) : string :=
  if contains "Lunch" (Speaker s) then
    LF +++ strftime_HM (Start s) +++ "–" +++ strftime_HM (End_ s)
    +++ "   Lunch Break" +++ LF
  else if contains "Coffee" (Speaker s) then
    LF +++ strftime_HM (Start s) +++ "–" +++ strftime_HM (End_ s)
    +++ "   Coffee Break" +++ LF
  else
    strftime_HM (Start s) +++ "–" +++ strftime_HM (End_ s) +++ " "
    +++ format_3d (ID s) +++ " " +++ format_20s (Speaker s) +++ " "
    +++ Title s.

Definition print_summary (schedule : list entry) (w : World) : World :=
  fold_left (fun w s => print (summary_line s) w) schedule
            (print (LF +++ "Generated Schedule:") w).

(** The script from the schedule loop to its last line, for a loaded
    table [df] and a speaking [order].  The result pairs the world the
    process leaves behind with its outcome. *)
Definition main (df : DataFrame) (order : list Z) (w : World)
    : World * result unit :=
  match build_schedule df order with
  | Raise e => (w, Raise e)
  | Ok schedule =>
    let w := print_summary schedule w in
    match input (LF +++ "Create Latex output for this schedule? (yes/NO): ") w with
    | (w, Raise e) => (w, Raise e)
    | (w, Ok line) =>
      let resp := lower (strip line) in
      if String.eqb resp "yes" then
        match generate_jdd_latex schedule "12mm" "48mm"
                (Some "jdd_schedule.tex") w with
        | (w, Raise e) => (w, Raise e)
        | (w, Ok latex) =>
          let w := print (LF +++ LF +++ "===== LaTeX Schedule Block =====" +++ LF) w in
          let w := print latex w in
          let w := print (LF +++ "================================") w in
          (w, Ok tt)
        end
      else (print (LF +++ "Exit.") w, Ok tt)
    end
  end.

(** The exit status of the process: 0 unless an exception escaped. *)
Definition exit_code {A : Type} (r : result A) : Z :=
  match r with
  | Ok _ => 0
  | Raise _ => 1
  end.

(** ** Notions used to state the properties *)

(** The entry of a break: what the script appends for the lunch window and
    for the coffee window. *)
Definition break_entry (label : string) (b_start b_end : Datetime.t) : entry :=
  {| Speaker := label; Title := "";
     Start := b_start; End_ := b_end; ID := -1; Online := -1 |}.

(** The break insertion rule as the specification words it: when
    [current_time <= b_start] and the tentative end is after [b_start], a
    break entry spanning the window is inserted and [current_time] moves to
    [b_end]; otherwise nothing happens.  The result is the inserted entries
    and the new [current_time]. *)
Definition break_insertion_rule (label : string) (b_start b_end : Datetime.t)
    (current_time slot : Z) : list entry * Datetime.t :=
  if (current_time <=? b_start) && (current_time + slot >? b_start)
  then ([break_entry label b_start b_end], b_end)
  else ([], current_time).

Definition lunch_rule : Datetime.t -> Z -> list entry * Datetime.t :=
  break_insertion_rule "--- Lunch Break ---" LUNCH_START LUNCH_END.

Definition coffee_rule : Datetime.t -> Z -> list entry * Datetime.t :=
  break_insertion_rule "--- Coffee Break ---" COFFEE_START COFFEE_END.

(** One iteration as the specification words it: slot length, lunch rule,
    coffee rule from the time the lunch rule left, then the talk. *)
Definition iteration_spec (row : TalkRecord) (idx : Z) (st : loop_state)
    : loop_state :=
  let slot := TIME row + 10 in
  let after_lunch := lunch_rule (snd st) slot in
  let after_coffee := coffee_rule (snd after_lunch) slot in
  let start := snd after_coffee in
  (fst st ++ fst after_lunch ++ fst after_coffee
     ++ [talk_entry row idx start (start + slot)],
   start + slot).

(** The three additions of one iteration stay inside the range of
    [datetime]. *)
Definition iteration_in_range (row : TalkRecord) (current_time : Datetime.t)
    : bool :=
  let slot := TIME row + 10 in
  let after_lunch := lunch_rule current_time slot in
  let after_coffee := coffee_rule (snd after_lunch) slot in
  Datetime.in_range (current_time + slot)
  && Datetime.in_range (snd after_lunch + slot)
  && Datetime.in_range (snd after_coffee + slot).

(** Every row of the table has a positive duration. *)
Definition positive_durations (df : DataFrame) : Prop :=
  forall row, In row df -> 0 < TIME row.

(** An identifier of the table: a row position. *)
Definition valid_id (df : DataFrame) (idx : Z) : Prop :=
  0 <= idx < Z.of_nat (List.length df).

(** The minutes the talks of [order] take, padding included. *)
Fixpoint total_slots (df : DataFrame) (order : list Z) : Z :=
  match order with
  | [] => 0
  | idx :: rest =>
    match iloc df idx with
    | Ok row => TIME row + 10
    | Raise _ => 0
    end + total_slots df rest
  end.

(** A timeline after time [lo]: every entry starts no earlier than the
    previous one ended, and ends no earlier than it starts. *)
Fixpoint chained (lo : Z) (l : list entry) : Prop :=
  match l with
  | [] => True
  | e :: rest => lo <= Start e /\ Start e <= End_ e /\ chained (End_ e) rest
  end.

Fixpoint last_end (lo : Z) (l : list entry) : Z :=
  match l with
  | [] => lo
  | e :: rest => last_end (End_ e) rest
  end.

Definition entry_eqb (a b : entry) : bool :=
  String.eqb (Speaker a) (Speaker b) && String.eqb (Title a) (Title b)
  && (Start a =? Start b) && (End_ a =? End_ b)
  && (ID a =? ID b) && (Online a =? Online b).

(** How many entries of the schedule are the entry [b]. *)
Definition count_entry (b : entry) (schedule : list entry) : nat :=
  List.length (filter (entry_eqb b) schedule).

(** What one iteration appended: the breaks, then the talk. *)
Definition chunk : Set := (list entry * entry)%type.

Definition chunk_entries (c : chunk) : list entry := fst c ++ [snd c].

(** What a talk's chunk looks like: breaks of the two kinds, then the row
    of [idx] on a slot of its duration plus ten minutes. *)
Definition chunk_of (df : DataFrame) (idx : Z) (c : chunk) : Prop :=
  (forall b, In b (fst c) -> b = lunch_break \/ b = coffee_break)
  /\ exists row,
       iloc df idx = Ok row
       /\ snd c = talk_entry row idx (Start (snd c))
                    (Start (snd c) + TIME row + 10).

(** ** Reading the summary back *)

Definition parse_digit (c : ascii) : option Z :=
  let n := N_of_ascii c in
  if ((48 <=? n) && (n <=? 57))%N then Some (Z.of_N n - 48) else None.

(** [HH:MM] at the head of a text: the minutes since midnight and what
    follows. *)
Definition parse_HM (s : string) : option (Z * string) :=
  match s with
  | String h1 (String h0 (String ":" (String m1 (String m0 rest)))) =>
    match parse_digit h1, parse_digit h0, parse_digit m1, parse_digit m0 with
    | Some a, Some b, Some c, Some d =>
      Some ((a * 10 + b) * 60 + (c * 10 + d), rest)
    | _, _, _, _ => None
    end
  | _ => None
  end.

Fixpoint strip_prefix (p s : string) : option string :=
  match p, s with
  | EmptyString, _ => Some s
  | String a p', String b s' =>
    if Ascii.eqb a b then strip_prefix p' s' else None
  | String _ _, EmptyString => None
  end.

(** [HH:MM–HH:MM] at the head of a text. *)
Definition parse_times (s : string) : option (Z * Z * string) :=
  match parse_HM s with
  | Some (t1, r1) =>
    match strip_prefix "–" r1 with
    | Some r2 =>
      match parse_HM r2 with
      | Some (t2, r3) => Some (t1, t2, r3)
      | None => None
      end
    | None => None
    end
  | None => None
  end.

Fixpoint skip_spaces (s : string) : string :=
  match s with
  | EmptyString => EmptyString
  | String c rest => if Ascii.eqb c " " then skip_spaces rest else s
  end.

(** The text up to the first space. *)
Fixpoint take_token (s : string) : string :=
  match s with
  | EmptyString => EmptyString
  | String c rest =>
    if Ascii.eqb c " " then EmptyString else String c (take_token rest)
  end.

(** Reading one printed entry back: the times of day of its start and end
    in minutes since midnight and, for a talk row, its ID.  A break is
    printed after a blank line and carries no ID. *)
Definition parse_summary_line (line : string) : option (Z * Z * option Z) :=
  match strip_prefix LF line with
  | Some body =>
    match parse_times body with
    | Some (t1, t2, _) => Some (t1, t2, None)
    | None => None
    end
  | None =>
    match parse_times line with
    | Some (t1, t2, String " " rest) =>
      match NilEmpty.int_of_string (take_token (skip_spaces rest)) with
      | Some d => Some (t1, t2, Some (Z.of_int d))
      | None => None
      end
    | _ => None
    end
  end.

(** The minutes since midnight of a time. *)
Definition time_of_day (d : Datetime.t) : Z := d mod 1440.

(** An entry the renderer and the summary treat as a break. *)
Definition printed_as_break (s : entry) : bool :=
  contains "Lunch" (Speaker s) || contains "Coffee" (Speaker s).

(** ** Example tables *)

Definition row_of (mins : Z) : TalkRecord :=
  {| FIRSTNAME := "Ada"; LASTNAME := "Lovelace"; TITLE := "Notes";
     TIME := mins; ONLINE := 0 |}.

(** A table of three talks, an order that visits them several times, and
    the day the loop lays out for them. *)
Definition example_table : DataFrame := [row_of 50; row_of 100; row_of 30].

Definition example_order : list Z := [0; 0; 1; 1; 2; 0; 1; 1; 2].

Definition example_day : list entry :=
  [talk_entry (row_of 50) 0 565 625;
   talk_entry (row_of 50) 0 625 685;
   lunch_break;
   coffee_break;
   talk_entry (row_of 100) 1 960 1070;
   talk_entry (row_of 100) 1 1070 1180;
   talk_entry (row_of 30) 2 1180 1220;
   talk_entry (row_of 50) 0 1220 1280;
   talk_entry (row_of 100) 1 1280 1390;
   talk_entry (row_of 100) 1 1390 1500;
   talk_entry (row_of 30) 2 1500 1540].

(** A console on which [answers] will be typed, with an empty, writable
    file system. *)
Definition console (answers : list string) : World :=
  {| files := fun _ => None; writable := fun _ => true;
     stdout := ""; stdin := answers |}.

(** ** Loop invariants *)

(** The loop invariant: the entries so far form a timeline from [lo] that
    ends at or before [current_time]. *)
Definition timeline_upto (lo : Z) (st : loop_state) : Prop :=
  chained lo (fst st) /\ last_end lo (fst st) <= snd st.

(** The loop invariant: a break is in the schedule at most once, and not
    at all while [current_time] has not passed its start. *)
Definition breaks_once (st : loop_state) : Prop :=
  (count_entry lunch_break (fst st) <= 1)%nat
  /\ (snd st <= LUNCH_START -> count_entry lunch_break (fst st) = 0%nat)
  /\ (count_entry coffee_break (fst st) <= 1)%nat
  /\ (snd st <= COFFEE_START -> count_entry coffee_break (fst st) = 0%nat).

(** ** Characters of a text *)

Fixpoint has_char (c : ascii) (s : string) : bool :=
  match s with
  | EmptyString => false
  | String x rest => Ascii.eqb c x || has_char c rest
  end.

(** ** The shape of a day *)

(** The loop state while no talk has passed the start of lunch. *)
Definition in_morning (st : loop_state) : Prop :=
  Forall (fun e => End_ e <= LUNCH_START) (fst st)
  /\ snd st <= LUNCH_START.

(** The loop state after lunch and before coffee. *)
Definition in_afternoon (st : loop_state) : Prop :=
  exists morning afternoon,
    fst st = morning ++ lunch_break :: afternoon
    /\ afternoon <> []
    /\ Forall (fun e => End_ e <= LUNCH_START) morning
    /\ Forall (fun e => LUNCH_END <= Start e /\ End_ e <= COFFEE_START)
         afternoon
    /\ LUNCH_END <= snd st <= COFFEE_START.

(** The loop state after coffee. *)
Definition in_evening (st : loop_state) : Prop :=
  exists morning afternoon evening,
    fst st = morning ++ lunch_break :: afternoon ++ coffee_break :: evening
    /\ evening <> []
    /\ Forall (fun e => End_ e <= LUNCH_START) morning
    /\ Forall (fun e => LUNCH_END <= Start e /\ End_ e <= COFFEE_START)
         afternoon
    /\ Forall (fun e => COFFEE_END <= Start e) evening
    /\ COFFEE_END <= snd st.

Definition day_shape (st : loop_state) : Prop :=
  in_morning st \/ in_afternoon st \/ in_evening st.


(** Entries that follow one another without idle time: each one is a
    break or starts when the previous one ended ([prev_end] for the
    first). *)
Fixpoint back_to_back (prev_end : Z) (l : list entry) : Prop :=
  match l with
  | [] => True
  | e :: rest =>
    (e = lunch_break \/ e = coffee_break \/ Start e = prev_end)
    /\ back_to_back (End_ e) rest
  end.

(** ** The ID column *)

(** [df.insert(0, "ID", range(len(df)))]: every row with its position. *)
Definition insert_ID (df : DataFrame) : list (Z * TalkRecord) :=
  combine (map Z.of_nat (seq 0 (List.length df))) df.

(** [iloc] on a table of any row type. *)
Definition iloc_at {A : Type} (rows : list A) (idx : Z) : result A :=
  let n := Z.of_nat (List.length rows) in
  let i := if idx <? 0 then idx + n else idx in
  if (0 <=? i) && (i <? n) then
    match nth_error rows (Z.to_nat i) with
    | Some row => Ok row
    | None => Raise IndexError
    end
  else Raise IndexError.


(** ** Tables of the rendered block *)

(** A line that opens a table. *)
Definition opens_table (line : string) : bool :=
  prefix "\begin{tabularx}" line.

(** A line that closes a table: the one the lunch break emits, or the
    last line of the block, which closes the table after a rule. *)
Definition closes_table (line : string) : bool :=
  prefix "\end{tabularx}" line
  || prefix ("\bottomrule" +++ LF +++ "\end{tabularx}") line.

(** A line that is a row or a rule of a table. *)
Definition is_row (line : string) : bool :=
  prefix "\talk{" line || prefix "\onlinetalk{" line
  || prefix "\multicolumn" line
  || prefix "\toprule" line || prefix "\bottomrule" line.

(** Walks the lines of a block: tables are opened and closed in turn,
    rows and rules stand inside a table, and the walk ends outside. *)
Fixpoint tables_balanced (inside : bool) (lines : list string) : bool :=
  match lines with
  | [] => negb inside
  | line :: rest =>
    if opens_table line then negb inside && tables_balanced true rest
    else if closes_table line then inside && tables_balanced false rest
    else if is_row line then inside && tables_balanced inside rest
    else tables_balanced inside rest
  end.


(** ** Well-formed text *)

(** A text that does not begin in the middle of a character. *)
Definition clean_start (s : string) : bool :=
  match s with
  | EmptyString => true
  | String c _ => negb (is_continuation c)
  end.

(** A text of one-byte characters only. *)
Fixpoint all_ascii (s : string) : bool :=
  match s with
  | EmptyString => true
  | String c rest => (N_of_ascii c <? 128)%N && all_ascii rest
  end.


(** ** What a run shows and writes *)

(** What the summary loop prints: the heading, then the text of each
    entry, each ended by the newline of [print]. *)
Definition summary_text (schedule : list entry) : string :=
  (LF +++ "Generated Schedule:") +++ LF
  +++ String.concat "" (map (fun s => summary_line s +++ LF) schedule).

(** The question asked before rendering. *)
Definition question : string :=
  LF +++ "Create Latex output for this schedule? (yes/NO): ".

(** The document the driver asks the renderer for. *)
Definition document (schedule : list entry) : string :=
  join LF ([header] ++ schedule_block "12mm" "48mm" schedule ++ [footer]).

(** What the driver prints after rendering: a banner, the document, a
    rule. *)
Definition rendering_report (schedule : list entry) : string :=
  ((LF +++ LF +++ "===== LaTeX Schedule Block =====" +++ LF) +++ LF)
  +++ (document schedule +++ LF)
  +++ (LF +++ "================================") +++ LF.


(** ** Whole characters and blank text *)

Fixpoint all_continuation (s : string) : bool :=
  match s with
  | EmptyString => true
  | String c rest => is_continuation c && all_continuation rest
  end.

(** The bytes of one whole character: a byte that continues nothing, then
    continuation bytes. *)
Definition proper (ch : string) : bool :=
  match ch with
  | EmptyString => false
  | String c tail => negb (is_continuation c) && all_continuation tail
  end.

(** A text made of white space only (the empty text included). *)
Definition blank (s : string) : bool := forallb isspace (code_points s).

(** The word yes in every mix of upper and lower case. *)
Definition yes_words : list string :=
  ["yes"; "yeS"; "yEs"; "yES"; "Yes"; "YeS"; "YEs"; "YES"].


(** ** Why a break is in the day *)

(** The length of an entry's slot. *)
Definition slot_of (e : entry) : Z := End_ e - Start e.

(** The morning so far: talks that end by the start of lunch, the clock
    standing at the end of the last one. *)
Definition plan_morning (st : loop_state) : Prop :=
  Forall (fun e => End_ e <= LUNCH_START) (fst st)
  /\ snd st <= LUNCH_START
  /\ snd st = last_end START_TIME (fst st).

(** After lunch: the talk [t] that follows the lunch break starts at the
    end of lunch and would have ended after the start of lunch, had it
    started when the morning ended. *)
Definition plan_afternoon (st : loop_state) : Prop :=
  exists morning t rest,
    fst st = morning ++ lunch_break :: t :: rest
    /\ Forall (fun e => End_ e <= LUNCH_START) morning
    /\ Forall (fun e => LUNCH_END <= Start e /\ End_ e <= COFFEE_START)
         (t :: rest)
    /\ Start t = LUNCH_END
    /\ LUNCH_START < last_end START_TIME morning + slot_of t
    /\ snd st = last_end LUNCH_END (t :: rest)
    /\ LUNCH_END <= snd st <= COFFEE_START.

(** After coffee: the talk [t] that follows the coffee break starts at the
    end of coffee and would have ended after the start of coffee, had it
    started when the afternoon ended (at the end of lunch when there is no
    afternoon talk, and then [t] is also the talk lunch was inserted
    for). *)
Definition plan_evening (st : loop_state) : Prop :=
  exists morning afternoon t rest,
    fst st = morning ++ lunch_break :: afternoon ++ coffee_break :: t :: rest
    /\ Forall (fun e => End_ e <= LUNCH_START) morning
    /\ Forall (fun e => LUNCH_END <= Start e /\ End_ e <= COFFEE_START)
         afternoon
    /\ Forall (fun e => COFFEE_END <= Start e) (t :: rest)
    /\ Start t = COFFEE_END
    /\ COFFEE_START < last_end LUNCH_END afternoon + slot_of t
    /\ match afternoon with
       | [] => LUNCH_START < last_end START_TIME morning + slot_of t
       | a :: _ =>
         Start a = LUNCH_END
         /\ LUNCH_START < last_end START_TIME morning + slot_of a
       end
    /\ COFFEE_END <= snd st.

Definition day_plan (st : loop_state) : Prop :=
  plan_morning st \/ plan_afternoon st \/ plan_evening st.

(** * Properties of the scheduler *)

(** ** The model on small inputs *)

Example build_one_talk :
  build_schedule [row_of 50] [0]
  = Ok [talk_entry (row_of 50) 0 (Datetime.strptime_HM 9 25)
          (Datetime.strptime_HM 10 25)].
Proof. reflexivity. Qed.

Example build_across_both_breaks :
  build_schedule [row_of 200] [0]
  = Ok [lunch_break; coffee_break;
        talk_entry (row_of 200) 0 (Datetime.strptime_HM 16 0)
          (Datetime.strptime_HM 19 30)].
Proof. reflexivity. Qed.

Example build_example_day :
  build_schedule example_table example_order = Ok example_day.
Proof. reflexivity. Qed.

Example build_unknown_row :
  build_schedule [row_of 50] [0; 1] = Raise IndexError.
Proof. reflexivity. Qed.

Example build_past_year_9999 :
  build_schedule [row_of Datetime.MAX] [0] = Raise OverflowError.
Proof. reflexivity. Qed.

(** The order written in the script visits each of twelve rows once. *)
Example order_visits_twelve_rows :
  NoDup order
  /\ List.length order = 12%nat
  /\ Forall (fun idx => 0 <= idx < 12) order.
Proof.
  split; [|split; [reflexivity|]].
  - unfold order. repeat constructor; simpl; intuition discriminate.
  - unfold order. repeat constructor; discriminate.
Qed.

Example strip_lower_answer :
  lower (strip ("  YeS " +++ LF)) = "yes"
  /\ strip (String (ascii_of_N 194) (String (ascii_of_N 160) "yes")) = "yes"
  /\ lower (strip "y e s") = "y e s".
Proof. repeat split. Qed.

Example len_counts_characters :
  len "Après-midi" = 10%nat /\ String.length "Après-midi" = 11%nat.
Proof. split; reflexivity. Qed.

Example summary_of_a_talk :
  summary_line (talk_entry (row_of 50) 0 (Datetime.strptime_HM 9 25)
                  (Datetime.strptime_HM 10 25))
  = "09:25–10:25   0 Ada Lovelace         Notes".
Proof. reflexivity. Qed.

Example summary_of_lunch :
  summary_line lunch_break = LF +++ "12:00–14:00   Lunch Break" +++ LF.
Proof. reflexivity. Qed.

Example render_online_talk :
  render_entry "12mm" "48mm"
    (talk_entry (mkTalk "Ada" "Lovelace" "Notes" 50 1) 0
       (Datetime.strptime_HM 9 25) (Datetime.strptime_HM 10 25))
  = [ "\onlinetalk{09}{25}{Ada Lovelace}{Notes}" ].
Proof. reflexivity. Qed.

Lemma lunch_break_entry :
  lunch_break = break_entry "--- Lunch Break ---" LUNCH_START LUNCH_END.
Proof. reflexivity. Qed.

Lemma coffee_break_entry :
  coffee_break = break_entry "--- Coffee Break ---" COFFEE_START COFFEE_END.
Proof. reflexivity. Qed.

(** The loop body is the iteration of the specification, guarded by the
    range of [datetime]. *)
Lemma loop_body_eq (df : DataFrame) (schedule : list entry)
    (current_time : Datetime.t) (idx : Z) :
  loop_body df (schedule, current_time) idx =
  match iloc df idx with
  | Raise e => Raise e
  | Ok row =>
    if iteration_in_range row current_time
    then Ok (iteration_spec row idx (schedule, current_time))
    else Raise OverflowError
  end.
Proof.
  unfold loop_body. destruct (iloc df idx) as [row|e]; [|reflexivity].
  unfold iteration_in_range, iteration_spec, lunch_rule, coffee_rule,
    break_insertion_rule, Datetime.add_minutes.
  cbn [bind fst snd].
  destruct (Datetime.in_range (current_time + (TIME row + 10))) eqn:R0;
    cbn [bind andb]; [|reflexivity].
  destruct ((current_time <=? LUNCH_START)
            && (current_time + (TIME row + 10) >? LUNCH_START)) eqn:L;
    cbn [bind fst snd].
  - destruct (Datetime.in_range (LUNCH_END + (TIME row + 10))) eqn:R1;
      cbn [bind andb]; [|reflexivity].
    destruct ((LUNCH_END <=? COFFEE_START)
              && (LUNCH_END + (TIME row + 10) >? COFFEE_START)) eqn:C;
      cbn [bind fst snd].
    + destruct (Datetime.in_range (COFFEE_END + (TIME row + 10)));
        cbn [bind]; [|reflexivity].
      rewrite <- !app_assoc. reflexivity.
    + rewrite R1. rewrite <- !app_assoc. reflexivity.
  - rewrite R0. cbn [andb].
    destruct ((current_time <=? COFFEE_START)
              && (current_time + (TIME row + 10) >? COFFEE_START)) eqn:C;
      cbn [bind fst snd].
    + destruct (Datetime.in_range (COFFEE_END + (TIME row + 10)));
        cbn [bind]; [|reflexivity].
      rewrite <- !app_assoc. reflexivity.
    + rewrite R0. reflexivity.
Qed.

Lemma lunch_rule_entries (current_time slot : Z) (b : entry) :
  In b (fst (lunch_rule current_time slot)) -> b = lunch_break.
Proof.
  unfold lunch_rule, break_insertion_rule.
  destruct (_ && _); cbn [fst In]; [intros [H|[]]; now subst | intros []].
Qed.

Lemma coffee_rule_entries (current_time slot : Z) (b : entry) :
  In b (fst (coffee_rule current_time slot)) -> b = coffee_break.
Proof.
  unfold coffee_rule, break_insertion_rule.
  destruct (_ && _); cbn [fst In]; [intros [H|[]]; now subst | intros []].
Qed.

(** A successful iteration is the iteration of the specification on an
    existing row. *)
Lemma loop_body_ok (df : DataFrame) (st st' : loop_state) (idx : Z) :
  loop_body df st idx = Ok st' ->
  exists row, iloc df idx = Ok row
              /\ iteration_in_range row (snd st) = true
              /\ st' = iteration_spec row idx st.
Proof.
  destruct st as [schedule current_time]. rewrite loop_body_eq.
  destruct (iloc df idx) as [row|e]; [|discriminate].
  cbn [snd]. destruct (iteration_in_range row current_time) eqn:R;
    [|discriminate].
  intros [= <-]. now exists row.
Qed.

Lemma run_loop_cons (df : DataFrame) (idx : Z) (rest : list Z)
    (st st' : loop_state) :
  run_loop df (idx :: rest) st = Ok st' ->
  exists row, iloc df idx = Ok row
              /\ iteration_in_range row (snd st) = true
              /\ run_loop df rest (iteration_spec row idx st) = Ok st'.
Proof.
  cbn [run_loop]. destruct (loop_body df st idx) as [st1|e] eqn:B;
    [|discriminate].
  cbn [bind]. intros H. apply loop_body_ok in B as (row & I & R & ->).
  now exists row.
Qed.

Lemma build_schedule_ok (df : DataFrame) (order : list Z)
    (schedule : list entry) :
  build_schedule df order = Ok schedule ->
  exists current_time,
    run_loop df order ([], START_TIME) = Ok (schedule, current_time).
Proof.
  unfold build_schedule.
  destruct (run_loop df order ([], START_TIME)) as [[s c]|e];
    [|discriminate].
  cbn [bind fst]. intros [= <-]. now exists c.
Qed.

Lemma run_loop_chunks (df : DataFrame) (order : list Z) :
  forall st st',
    run_loop df order st = Ok st' ->
    exists chunks : list chunk,
      fst st' = fst st ++ flat_map chunk_entries chunks
      /\ Forall2 (chunk_of df) order chunks.
Proof.
  induction order as [|idx rest IH]; intros st st' H.
  - injection H as <-. exists []. cbn. now rewrite app_nil_r.
  - apply run_loop_cons in H as (row & I & _ & H).
    apply IH in H as (chunks & E & F).
    set (slot := TIME row + 10) in *.
    set (after_lunch := lunch_rule (snd st) slot) in *.
    set (after_coffee := coffee_rule (snd after_lunch) slot) in *.
    exists ((fst after_lunch ++ fst after_coffee,
             talk_entry row idx (snd after_coffee) (snd after_coffee + slot))
            :: chunks).
    split.
    + rewrite E. unfold iteration_spec, chunk_entries.
      fold slot after_lunch after_coffee. cbn [fst snd flat_map].
      now rewrite <- !app_assoc.
    + constructor; [|exact F]. split.
      * cbn [fst]. intros b Hb. apply in_app_or in Hb as [Hb|Hb].
        -- left. eapply lunch_rule_entries, Hb.
        -- right. eapply coffee_rule_entries, Hb.
      * exists row. split; [exact I|]. cbn [snd].
        unfold talk_entry, slot. cbn [Start]. f_equal. lia.
Qed.

(** C2. In an iteration of the loop, first for lunch and then, from the
    time the lunch rule left, for coffee: when [current_time] is at or
    before the break's start and the tentative end is after it, the break
    entry spanning the window is appended, [current_time] becomes the
    break's end and the end time is computed again from there before the
    talk is appended.  The entries are written out field by field: a
    break carries its label, an empty title, the window and -1 twice; the
    talk carries the row's name, title and online flag, the position as
    ID, and runs from the time the rules left for the length of the slot.
    From 11:50 (minute 710 of the day) with a slot of 30 minutes the
    lunch break 12:00 to 14:00 is appended and the talk runs 14:00 to
    14:30. *)
Theorem loop_body_break_insertion :
  (forall label b_start b_end current_time slot,
     break_insertion_rule label b_start b_end current_time slot
     = if (current_time <=? b_start) && (current_time + slot >? b_start)
       then ([ {| Speaker := label; Title := "";
                  Start := b_start; End_ := b_end;
                  ID := -1; Online := -1 |} ], b_end)
       else ([], current_time))
  /\
  (LUNCH_START = 720 /\ LUNCH_END = 840
   /\ COFFEE_START = 940 /\ COFFEE_END = 960
   /\ Datetime.strptime_HM 11 50 = 710)
  /\
  (forall df schedule current_time idx row,
     iloc df idx = Ok row ->
     iteration_in_range row current_time = true ->
     let slot := TIME row + 10 in
     let after_lunch :=
       break_insertion_rule "--- Lunch Break ---" LUNCH_START LUNCH_END
         current_time slot in
     let after_coffee :=
       break_insertion_rule "--- Coffee Break ---" COFFEE_START COFFEE_END
         (snd after_lunch) slot in
     let start := snd after_coffee in
     loop_body df (schedule, current_time) idx
     = Ok (schedule ++ fst after_lunch ++ fst after_coffee
             ++ [ {| Speaker := FIRSTNAME row +++ " " +++ LASTNAME row;
                     Title := TITLE row;
                     Start := start; End_ := start + slot;
                     ID := idx; Online := ONLINE row |} ],
           start + slot))
  /\
  (forall df schedule idx row,
     iloc df idx = Ok row ->
     TIME row + 10 = 30 ->
     loop_body df (schedule, 710) idx
     = Ok (schedule
             ++ [ {| Speaker := "--- Lunch Break ---"; Title := "";
                     Start := 720; End_ := 840; ID := -1; Online := -1 |};
                  {| Speaker := FIRSTNAME row +++ " " +++ LASTNAME row;
                     Title := TITLE row;
                     Start := 840; End_ := 870;
                     ID := idx; Online := ONLINE row |} ],
           870)).
Proof.
  split; [reflexivity|]. split; [repeat split|]. split.
  - intros df schedule current_time idx row I R slot after_lunch
      after_coffee start.
    rewrite loop_body_eq, I, R. reflexivity.
  - intros df schedule idx row I S.
    rewrite loop_body_eq, I.
    unfold iteration_in_range, iteration_spec. rewrite S. reflexivity.
Qed.

Lemma loop_body_break_insertion_witness :
  loop_body [row_of 20] ([], 710) 0
  = Ok ([ {| Speaker := "--- Lunch Break ---"; Title := "";
             Start := 720; End_ := 840; ID := -1; Online := -1 |};
          {| Speaker := "Ada Lovelace"; Title := "Notes";
             Start := 840; End_ := 870; ID := 0; Online := 0 |} ],
        870)
  /\
  loop_body [row_of 90] ([], 870) 0
  = Ok ([ {| Speaker := "--- Coffee Break ---"; Title := "";
             Start := 940; End_ := 960; ID := -1; Online := -1 |};
          {| Speaker := "Ada Lovelace"; Title := "Notes";
             Start := 960; End_ := 1060; ID := 0; Online := 0 |} ],
        1060).
Proof.
  split.
  - exact (proj2 (proj2 (proj2 loop_body_break_insertion))
             [row_of 20] [] 0 (row_of 20) eq_refl eq_refl).
  - exact (proj1 (proj2 (proj2 loop_body_break_insertion))
             [row_of 90] [] 870 0 (row_of 90) eq_refl eq_refl).
Defined.



(** ** The schedule is a timeline *)

Lemma chained_app (l1 l2 : list entry) :
  forall lo,
    chained lo (l1 ++ l2) <-> chained lo l1 /\ chained (last_end lo l1) l2.
Proof.
  induction l1 as [|e l1 IH]; intros lo; simpl.
  - tauto.
  - specialize (IH (End_ e)). tauto.
Qed.

Lemma last_end_app (l1 l2 : list entry) :
  forall lo, last_end lo (l1 ++ l2) = last_end (last_end lo l1) l2.
Proof.
  induction l1 as [|e l1 IH]; intros lo; simpl; auto.
Qed.

(** In a timeline, neighbours are ordered and do not overlap. *)
Lemma chained_neighbours (l : list entry) :
  forall lo i a b,
    chained lo l ->
    nth_error l i = Some a -> nth_error l (S i) = Some b ->
    Start a <= Start b /\ End_ a <= Start b.
Proof.
  induction l as [|e l IH]; intros lo i a b C Ha Hb.
  - destruct i; discriminate.
  - destruct C as (_ & Hse & C). destruct i as [|i].
    + injection Ha as <-. destruct l as [|e' l]; [discriminate|].
      injection Hb as <-. destruct C as (C & _). lia.
    + eapply IH; eauto.
Qed.

Lemma break_rule_timeline (label : string) (b_start b_end : Datetime.t)
    (lo : Z) (schedule : list entry) (current_time slot : Z) :
  b_start <= b_end ->
  timeline_upto lo (schedule, current_time) ->
  let r := break_insertion_rule label b_start b_end current_time slot in
  timeline_upto lo (schedule ++ fst r, snd r).
Proof.
  intros Hw [C L]. cbn [fst snd] in *. unfold break_insertion_rule.
  destruct ((current_time <=? b_start) && (current_time + slot >? b_start))
    eqn:T; cbn [fst snd]; unfold timeline_upto; cbn [fst snd].
  - apply andb_true_iff in T as [T _]. apply Z.leb_le in T.
    rewrite chained_app, last_end_app. cbn. repeat split; auto; lia.
  - rewrite app_nil_r. auto.
Qed.

Lemma iteration_timeline (row : TalkRecord) (idx lo : Z) (st : loop_state) :
  0 <= TIME row + 10 ->
  timeline_upto lo st -> timeline_upto lo (iteration_spec row idx st).
Proof.
  intros Hs H. destruct st as [schedule current_time].
  unfold iteration_spec. cbn [fst snd].
  set (slot := TIME row + 10) in *.
  apply (break_rule_timeline "--- Lunch Break ---" LUNCH_START LUNCH_END
           lo schedule current_time slot) in H; [|discriminate].
  fold (lunch_rule current_time slot) in H.
  set (after_lunch := lunch_rule current_time slot) in *.
  apply (break_rule_timeline "--- Coffee Break ---" COFFEE_START COFFEE_END
           lo _ (snd after_lunch) slot) in H; [|discriminate].
  fold (coffee_rule (snd after_lunch) slot) in H.
  set (after_coffee := coffee_rule (snd after_lunch) slot) in *.
  destruct H as [C L]. cbn [fst snd] in C, L.
  unfold timeline_upto. cbn [fst snd].
  rewrite !app_assoc. split.
  - apply chained_app. split; [exact C|].
    cbn [chained talk_entry Start End_]. lia.
  - rewrite last_end_app. cbn [last_end talk_entry End_]. lia.
Qed.

Lemma iloc_In (df : DataFrame) (idx : Z) (row : TalkRecord) :
  iloc df idx = Ok row -> In row df.
Proof.
  unfold iloc. destruct (_ && _); [|discriminate].
  destruct (nth_error df _) eqn:N; [|discriminate].
  intros [= <-]. eapply nth_error_In, N.
Qed.

Lemma iloc_valid (df : DataFrame) (idx : Z) :
  valid_id df idx -> exists row, iloc df idx = Ok row.
Proof.
  unfold valid_id, iloc. intros [H0 H1].
  destruct (idx <? 0) eqn:N; [apply Z.ltb_lt in N; lia|].
  replace ((0 <=? idx) && (idx <? Z.of_nat (List.length df))) with true
    by (symmetry; apply andb_true_iff; split;
        [apply Z.leb_le|apply Z.ltb_lt]; lia).
  destruct (nth_error df (Z.to_nat idx)) eqn:E; [eauto|].
  apply nth_error_None in E. lia.
Qed.

(** The times a break rule can leave are the time it was given or the end
    of its window. *)
Lemma break_rule_time (label : string) (b_start b_end current_time slot : Z) :
  snd (break_insertion_rule label b_start b_end current_time slot)
    = current_time
  \/ snd (break_insertion_rule label b_start b_end current_time slot) = b_end.
Proof. unfold break_insertion_rule. destruct (_ && _); auto. Qed.

Lemma in_range_intro (x : Z) :
  Datetime.MIN <= x <= Datetime.MAX -> Datetime.in_range x = true.
Proof.
  intros [H0 H1]. unfold Datetime.in_range.
  apply andb_true_iff. split; now apply Z.leb_le.
Qed.

(** ** Each break is inserted at most once *)

Lemma count_entry_app (b : entry) (l1 l2 : list entry) :
  count_entry b (l1 ++ l2) = (count_entry b l1 + count_entry b l2)%nat.
Proof. unfold count_entry. now rewrite filter_app, length_app. Qed.

Lemma entry_eqb_start (a b : entry) :
  Start a <> Start b -> entry_eqb a b = false.
Proof.
  intros H. unfold entry_eqb. apply Z.eqb_neq in H. rewrite H.
  now rewrite !andb_false_r.
Qed.

Lemma count_entry_other_start (b e : entry) :
  Start b <> Start e -> count_entry b [e] = 0%nat.
Proof.
  intros H. unfold count_entry. cbn [filter].
  now rewrite entry_eqb_start.
Qed.

Lemma iteration_breaks_once (row : TalkRecord) (idx : Z) (st : loop_state) :
  0 < TIME row + 10 ->
  breaks_once st -> breaks_once (iteration_spec row idx st).
Proof.
  destruct st as [schedule current_time].
  unfold breaks_once, iteration_spec, lunch_rule, coffee_rule,
    break_insertion_rule.
  rewrite <- lunch_break_entry, <- coffee_break_entry.
  cbn [fst snd]. set (slot := TIME row + 10).
  intros Hs (L1 & L0 & C1 & C0).
  assert (LUNCH_START = 720 /\ LUNCH_END = 840 /\ COFFEE_START = 940
          /\ COFFEE_END = 960) as (E1 & E2 & E3 & E4) by (now cbv).
  assert (count_entry lunch_break [lunch_break] = 1%nat
          /\ count_entry lunch_break [coffee_break] = 0%nat
          /\ count_entry coffee_break [lunch_break] = 0%nat
          /\ count_entry coffee_break [coffee_break] = 1%nat
          /\ forall b, count_entry b [] = 0%nat)
    as (K1 & K2 & K3 & K4 & K5) by (now cbv).
  destruct (Z.leb_spec current_time LUNCH_START) as [A1|A1];
    destruct (Z.gtb_spec (current_time + slot) LUNCH_START) as [A2|A2];
    cbn [andb fst snd].
  all: match goal with
       | |- context [?c <=? COFFEE_START] =>
         destruct (Z.leb_spec c COFFEE_START) as [A3|A3]
       end.
  all: match goal with
       | |- context [?c >? COFFEE_START] =>
         destruct (Z.gtb_spec c COFFEE_START) as [A4|A4]
       end.
  all: cbn [andb fst snd].
  all: rewrite !count_entry_app, ?K1, ?K2, ?K3, ?K4, ?K5.
  all: rewrite !count_entry_other_start
         by (cbn [Start talk_entry lunch_break coffee_break]; lia).
  all: repeat split; try lia.
Qed.

(** The condition under which a break rule inserts its entry. *)
Lemma break_rule_inserts (label : string)
    (b_start b_end current_time slot : Z) :
  let r := break_insertion_rule label b_start b_end current_time slot in
  (fst r = [] /\ snd r = current_time
   /\ ~ current_time <= b_start < current_time + slot)
  \/ (fst r = [break_entry label b_start b_end] /\ snd r = b_end
      /\ current_time <= b_start < current_time + slot).
Proof.
  unfold break_insertion_rule.
  destruct (Z.leb_spec current_time b_start);
    destruct (Z.gtb_spec (current_time + slot) b_start);
    cbn [andb fst snd]; auto; left; repeat split; auto; lia.
Qed.

(** ** The loop over a table with positive durations *)

Section PositiveDurations.

Variable df : DataFrame.
Hypothesis positive : positive_durations df.

Lemma positive_slot (idx : Z) (row : TalkRecord) :
  iloc df idx = Ok row -> 0 < TIME row + 10.
Proof. intros I. apply iloc_In, positive in I. lia. Qed.

Lemma run_loop_timeline (lo : Z) (order : list Z) :
  forall st st',
    timeline_upto lo st -> run_loop df order st = Ok st' ->
    timeline_upto lo st'.
Proof.
  induction order as [|idx rest IH]; intros st st' T H.
  - now injection H as <-.
  - apply run_loop_cons in H as (row & I & _ & H).
    eapply IH; [|exact H]. apply iteration_timeline; [|exact T].
    apply positive_slot in I. lia.
Qed.

Lemma total_slots_nonneg (order : list Z) : 0 <= total_slots df order.
Proof.
  induction order as [|idx rest IH]; cbn [total_slots]; [lia|].
  destruct (iloc df idx) as [row|e] eqn:I; [|lia].
  apply positive_slot in I. lia.
Qed.

(** The loop runs to its end when the rows exist and the day does not
    leave the range of [datetime]. *)
Lemma run_loop_total (order : list Z) :
  Forall (valid_id df) order ->
  forall st,
    Datetime.MIN <= snd st ->
    Z.max (snd st) COFFEE_END + total_slots df order <= Datetime.MAX ->
    exists st', run_loop df order st = Ok st'.
Proof.
  intros V. induction V as [|idx rest Hidx V IH]; intros st Hlo Hhi.
  - now exists st.
  - destruct (iloc_valid df idx Hidx) as (row & I).
    pose proof (positive_slot idx row I) as Hpos.
    cbn [total_slots] in Hhi. rewrite I in Hhi.
    pose proof (total_slots_nonneg rest) as Hrest.
    destruct st as [schedule current_time]. cbn [snd] in Hlo, Hhi.
    cbn [run_loop]. rewrite loop_body_eq, I.
    pose proof (break_rule_time "--- Lunch Break ---" LUNCH_START LUNCH_END
                  current_time (TIME row + 10)) as H1.
    fold (lunch_rule current_time (TIME row + 10)) in H1.
    pose proof (break_rule_time "--- Coffee Break ---" COFFEE_START
                  COFFEE_END (snd (lunch_rule current_time (TIME row + 10)))
                  (TIME row + 10)) as H2.
    fold (coffee_rule (snd (lunch_rule current_time (TIME row + 10)))
            (TIME row + 10)) in H2.
    assert (Datetime.MIN <= LUNCH_END /\ LUNCH_END <= COFFEE_END
            /\ Datetime.MIN <= COFFEE_END) as (B1 & B2 & B3)
      by (repeat split; discriminate).
    assert (iteration_in_range row current_time = true) as R.
    { unfold iteration_in_range.
      rewrite !andb_true_iff. repeat split; apply in_range_intro; lia. }
    rewrite R. cbn [bind]. apply IH.
    + unfold iteration_spec. cbn [snd]. lia.
    + unfold iteration_spec. cbn [snd]. lia.
Qed.

Lemma run_loop_breaks_once (order : list Z) :
  forall st st',
    breaks_once st -> run_loop df order st = Ok st' -> breaks_once st'.
Proof.
  induction order as [|idx rest IH]; intros st st' B H.
  - now injection H as <-.
  - apply run_loop_cons in H as (row & I & _ & H).
    eapply IH; [|exact H]. apply iteration_breaks_once; [|exact B].
    eapply positive_slot, I.
Qed.

End PositiveDurations.

(** Discharges [positive_durations] for a table written out row by row. *)
Ltac positive_table :=
  let row := fresh "row" in
  let H := fresh "H" in
  intros row H; simpl in H;
  repeat (destruct H as [<-|H]; [reflexivity|]); destruct H.

(** C1. For a table with positive durations the schedule the loop produces
    has non-decreasing start times, and of two consecutive entries the
    earlier ends at or before the start of the later.  For a valid order
    whose talks fit in the range of [datetime] the loop does produce a
    schedule. *)
Theorem schedule_starts_sorted_no_overlap :
  forall df order,
    positive_durations df ->
    (Forall (valid_id df) order ->
     COFFEE_END + total_slots df order <= Datetime.MAX ->
     exists schedule, build_schedule df order = Ok schedule)
    /\
    (forall schedule,
       build_schedule df order = Ok schedule ->
       forall i a b,
         nth_error schedule i = Some a ->
         nth_error schedule (S i) = Some b ->
         Start a <= Start b /\ End_ a <= Start b).
Proof.
  intros df order P. split.
  - intros V B.
    destruct (run_loop_total df P order V ([], START_TIME)) as (st & H).
    + discriminate.
    + cbn [snd]. replace (Z.max START_TIME COFFEE_END) with COFFEE_END
        by reflexivity. exact B.
    + exists (fst st). unfold build_schedule. now rewrite H.
  - intros schedule H i a b Ha Hb.
    apply build_schedule_ok in H as (c & H).
    apply (run_loop_timeline df P START_TIME order) in H as [C _].
    + eapply chained_neighbours; eauto.
    + split; cbn; [exact I | lia].
Qed.

Lemma schedule_starts_sorted_no_overlap_witness :
  (exists schedule,
     build_schedule [row_of 50; row_of 100; row_of 30] [2; 0; 1]
     = Ok schedule)
  /\
  build_schedule [row_of 50; row_of 100; row_of 30] [2; 0; 1]
  = Ok [talk_entry (row_of 30) 2 565 605;
        talk_entry (row_of 50) 0 605 665;
        lunch_break;
        coffee_break;
        talk_entry (row_of 100) 1 960 1070]
  /\
  (Start (talk_entry (row_of 50) 0 605 665) <= Start lunch_break
   /\ End_ (talk_entry (row_of 50) 0 605 665) <= Start lunch_break).
Proof.
  assert (positive_durations [row_of 50; row_of 100; row_of 30]) as P
    by positive_table.
  destruct (schedule_starts_sorted_no_overlap
              [row_of 50; row_of 100; row_of 30] [2; 0; 1] P) as [H1 H2].
  split; [apply H1|split; [reflexivity|]].
  - repeat constructor; unfold valid_id; simpl; lia.
  - vm_compute. discriminate.
  - exact (H2 _ eq_refl 1%nat _ _ eq_refl eq_refl).
Defined.

(** C4. For a table with positive durations and any order, the schedule
    holds the lunch break at most once and the coffee break at most once;
    and in an iteration a break is appended only when [current_time], as
    it stands at that break's check, is at or before the break's start.
    The talk appended after the breaks never starts at the start of a
    break, so it is not itself one of the two break entries. *)
Theorem breaks_inserted_at_most_once :
  forall df order,
    positive_durations df ->
    (forall schedule,
       build_schedule df order = Ok schedule ->
       (count_entry lunch_break schedule <= 1)%nat
       /\ (count_entry coffee_break schedule <= 1)%nat)
    /\
    (forall st idx st',
       loop_body df st idx = Ok st' ->
       exists lunch coffee talk time_at_coffee_check,
         fst st' = fst st ++ lunch ++ coffee ++ [talk]
         /\ (lunch = [] /\ time_at_coffee_check = snd st
             \/ lunch = [lunch_break] /\ time_at_coffee_check = LUNCH_END
                /\ snd st <= LUNCH_START)
         /\ (coffee = []
             \/ coffee = [coffee_break]
                /\ time_at_coffee_check <= COFFEE_START)
         /\ Start talk <> LUNCH_START /\ Start talk <> COFFEE_START).
Proof.
  intros df order P. split.
  - intros schedule H. apply build_schedule_ok in H as (c & H).
    apply (run_loop_breaks_once df P order) in H.
    + destruct H as (L & _ & C & _). auto.
    + repeat split; intros; cbn; lia.
  - intros st idx st' H. apply loop_body_ok in H as (row & I & _ & ->).
    assert (0 < TIME row) as Hpos by (apply P; eapply iloc_In, I).
    unfold iteration_spec, lunch_rule, coffee_rule. cbn [fst snd].
    set (slot := TIME row + 10).
    pose proof (break_rule_inserts "--- Lunch Break ---" LUNCH_START
                  LUNCH_END (snd st) slot) as HL.
    cbv zeta in HL.
    set (after_lunch := break_insertion_rule "--- Lunch Break ---"
                          LUNCH_START LUNCH_END (snd st) slot) in *.
    pose proof (break_rule_inserts "--- Coffee Break ---" COFFEE_START
                  COFFEE_END (snd after_lunch) slot) as HC.
    cbv zeta in HC.
    set (after_coffee := break_insertion_rule "--- Coffee Break ---"
                           COFFEE_START COFFEE_END (snd after_lunch) slot)
      in *.
    exists (fst after_lunch), (fst after_coffee),
      (talk_entry row idx (snd after_coffee) (snd after_coffee + slot)),
      (snd after_lunch).
    assert (LUNCH_START = 720 /\ LUNCH_END = 840 /\ COFFEE_START = 940
            /\ COFFEE_END = 960) as (E1 & E2 & E3 & E4) by (now cbv).
    cbn [Start talk_entry].
    split; [reflexivity|].
    destruct HL as [(L1 & L2 & L3)|(L1 & L2 & L3)];
      destruct HC as [(C1 & C2 & C3)|(C1 & C2 & C3)];
      rewrite ?L1, ?C1, <- ?lunch_break_entry, <- ?coffee_break_entry;
      repeat split; auto; try lia.
    all: try (left; split; [reflexivity|lia]).
    all: try (right; repeat split; auto; lia).
Qed.

Lemma breaks_inserted_at_most_once_witness :
  build_schedule example_table example_order = Ok example_day
  /\
  ((count_entry lunch_break example_day <= 1)%nat
   /\ (count_entry coffee_break example_day <= 1)%nat)
  /\
  (exists lunch coffee talk time_at_coffee_check,
     [talk_entry (row_of 50) 0 625 685; lunch_break; coffee_break;
      talk_entry (row_of 100) 1 960 1070]
     = [talk_entry (row_of 50) 0 625 685] ++ lunch ++ coffee ++ [talk]
     /\ (lunch = [] /\ time_at_coffee_check = 685
         \/ lunch = [lunch_break] /\ time_at_coffee_check = LUNCH_END
            /\ 685 <= LUNCH_START)
     /\ (coffee = []
         \/ coffee = [coffee_break]
            /\ time_at_coffee_check <= COFFEE_START)
     /\ Start talk <> LUNCH_START /\ Start talk <> COFFEE_START).
Proof.
  assert (positive_durations example_table) as P by positive_table.
  destruct (breaks_inserted_at_most_once example_table example_order P)
    as [H1 H2].
  split; [reflexivity|]. split.
  - exact (H1 example_day eq_refl).
  - exact (H2 ([talk_entry (row_of 50) 0 625 685], 685) 1
              ([talk_entry (row_of 50) 0 625 685; lunch_break; coffee_break;
                talk_entry (row_of 100) 1 960 1070], 1070) eq_refl).
Defined.

(** ** Identifiers outside the table *)

Lemma iloc_out_of_range (df : DataFrame) (idx : Z) :
  idx < - Z.of_nat (List.length df) \/ Z.of_nat (List.length df) <= idx ->
  iloc df idx = Raise IndexError.
Proof.
  intros H. unfold iloc.
  destruct (Z.ltb_spec idx 0) as [N|N];
    match goal with
    | |- context [(0 <=? ?i) && (?i <? ?n)] =>
      destruct (Z.leb_spec 0 i); destruct (Z.ltb_spec i n)
    end; cbn [andb]; try reflexivity; lia.
Qed.






(** * Properties of the renderer and of the summary *)

(** ** Digits and characters *)

Lemma digit_code (a : Z) :
  0 <= a <= 9 -> N_of_ascii (digit a) = (48 + Z.to_N a)%N.
Proof.
  intros H. unfold digit. apply N_ascii_embedding. lia.
Qed.

Lemma parse_digit_digit (a : Z) :
  0 <= a <= 9 -> parse_digit (digit a) = Some a.
Proof.
  intros H. unfold parse_digit. rewrite (digit_code a H).
  destruct (N.leb_spec 48 (48 + Z.to_N a)); [|lia].
  destruct (N.leb_spec (48 + Z.to_N a) 57); [|lia].
  cbn [andb]. f_equal. lia.
Qed.

Lemma hour_bounds (d : Datetime.t) : 0 <= Datetime.hour d < 24.
Proof. unfold Datetime.hour. apply Z.mod_pos_bound. lia. Qed.

Lemma minute_bounds (d : Datetime.t) : 0 <= Datetime.minute d < 60.
Proof. unfold Datetime.minute. apply Z.mod_pos_bound. lia. Qed.

Lemma tens_units (n : Z) :
  0 <= n < 100 -> 0 <= n / 10 <= 9 /\ 0 <= n mod 10 <= 9.
Proof.
  intros H.
  pose proof (Z.mod_pos_bound n 10 ltac:(lia)).
  pose proof (Z.div_mod n 10 ltac:(lia)).
  assert (0 <= n / 10) by (apply Z.div_pos; lia).
  assert (n / 10 < 10) by (apply Z.div_lt_upper_bound; lia).
  lia.
Qed.

Lemma has_char_append (c : ascii) (s1 s2 : string) :
  has_char c (s1 +++ s2) = has_char c s1 || has_char c s2.
Proof.
  induction s1 as [|x s1 IH]; cbn [append has_char]; [reflexivity|].
  now rewrite IH, orb_assoc.
Qed.

Lemma has_char_digit (c : ascii) (a : Z) :
  0 <= a <= 9 ->
  (N_of_ascii c < 48 \/ 57 < N_of_ascii c)%N ->
  Ascii.eqb c (digit a) = false.
Proof.
  intros Ha Hc. apply Ascii.eqb_neq. intros ->.
  rewrite (digit_code a Ha) in Hc. lia.
Qed.

Lemma has_char_two_digits (c : ascii) (n : Z) :
  0 <= n < 100 ->
  (N_of_ascii c < 48 \/ 57 < N_of_ascii c)%N ->
  has_char c (two_digits n) = false.
Proof.
  intros Hn Hc. destruct (tens_units n Hn) as [H1 H2].
  unfold two_digits. cbn [has_char].
  now rewrite !has_char_digit.
Qed.

(** A text without the first character of [needle] does not contain
    [needle]. *)
Lemma contains_first_char (c : ascii) (needle hay : string) :
  has_char c hay = false -> contains (String c needle) hay = false.
Proof.
  induction hay as [|x hay IH]; [reflexivity|].
  cbn [has_char contains prefix]. intros H.
  apply orb_false_iff in H as [H1 H2].
  destruct (ascii_dec c x) as [->|_].
  - now rewrite Ascii.eqb_refl in H1.
  - now apply IH.
Qed.

Lemma break_times_no_t (s : entry) : has_char "t" (break_times s) = false.
Proof.
  unfold break_times, strftime_H, strftime_M.
  pose proof (hour_bounds (Start s)). pose proof (hour_bounds (End_ s)).
  pose proof (minute_bounds (Start s)). pose proof (minute_bounds (End_ s)).
  rewrite !has_char_append.
  rewrite !has_char_two_digits by (try lia; right; reflexivity).
  reflexivity.
Qed.

(** C6. Whatever the schedule around it, an entry is rendered by its own
    lines, which stand in the block between the five opening lines and
    the closing line.  The lunch break closes the table ([\bottomrule],
    [\end{tabularx}]), gives a separator box holding the formatted start
    and end and the caption, and opens a new table under the afternoon
    heading with the same [\begin{tabularx}] line, column widths
    included, and [\toprule].  The coffee break gives one row, a
    separator box across the three columns with the formatted start and
    end and its caption, and no line of it mentions [tabularx]: the table
    is neither closed nor opened.  The two breaks of the script, with the
    widths it passes, are given letter by letter. *)
Theorem render_break_entries :
  forall tw sw title start stop id online,
    let lunch := mkEntry "--- Lunch Break ---" title start stop id online in
    let coffee := mkEntry "--- Coffee Break ---" title start stop id online in
    render_entry tw sw lunch
    = [ "\bottomrule\\[-6mm]";
        "\end{tabularx}" +++ LF;
        "\begin{separatorbox}[colback=accent!10,colframe=accent!50]";
        " " +++ strftime_H start +++ "\,h\," +++ strftime_M start
          +++ " — " +++ strftime_H stop +++ "\,h\," +++ strftime_M stop
          +++ " \quad " +++ "Pause déjeuner";
        "\end{separatorbox}" +++ LF;
        "\noindent\textbf{Après-midi}\par\smallskip";
        "\begin{tabularx}{\linewidth}{@{}>{\bfseries}p{" +++ tw
          +++ "} >{\raggedright\arraybackslash}p{" +++ sw +++ "} X@{}}";
        "\toprule" ]
    /\ render_entry tw sw coffee
       = [ "\multicolumn{3}{@{}l@{}}{\begin{separatorbox}[colback=brand!6,colframe=brand!30]";
           " " +++ strftime_H start +++ "\,h\," +++ strftime_M start
             +++ " — " +++ strftime_H stop +++ "\,h\," +++ strftime_M stop
             +++ " \quad " +++ "Pause café";
           "\end{separatorbox}}\\[2mm]" ]
    /\ Forall (fun line => contains "tabularx" line = false)
         (render_entry tw sw coffee)
    /\ (forall before after s,
          schedule_block tw sw (before ++ s :: after)
          = [ "%Schedule block";
              "\begin{tcolorbox}[enhanced, breakable, colback=white, colframe=brand!50, boxrule=0.6pt, arc=2mm, left=3mm, right=3mm, top=2mm, bottom=2mm]\vspace{1mm}";
              "\noindent\textbf{Matinée}\par\smallskip";
              "\begin{tabularx}{\linewidth}{@{}>{\bfseries}p{" +++ tw
                +++ "} >{\raggedright\arraybackslash}p{" +++ sw
                +++ "} X@{}}";
              "\toprule" ]
            ++ flat_map (render_entry tw sw) before
            ++ render_entry tw sw s
            ++ flat_map (render_entry tw sw) after
            ++ [ "\bottomrule
\end{tabularx}
\vspace{1mm}
\end{tcolorbox}" ])
    /\ render_entry "12mm" "48mm"
         {| Speaker := "--- Lunch Break ---"; Title := "";
            Start := 720; End_ := 840; ID := -1; Online := -1 |}
       = [ "\bottomrule\\[-6mm]";
           "\end{tabularx}
";
           "\begin{separatorbox}[colback=accent!10,colframe=accent!50]";
           " 12\,h\,00 — 14\,h\,00 \quad Pause déjeuner";
           "\end{separatorbox}
";
           "\noindent\textbf{Après-midi}\par\smallskip";
           "\begin{tabularx}{\linewidth}{@{}>{\bfseries}p{12mm} >{\raggedright\arraybackslash}p{48mm} X@{}}";
           "\toprule" ]
    /\ render_entry "12mm" "48mm"
         {| Speaker := "--- Coffee Break ---"; Title := "";
            Start := 940; End_ := 960; ID := -1; Online := -1 |}
       = [ "\multicolumn{3}{@{}l@{}}{\begin{separatorbox}[colback=brand!6,colframe=brand!30]";
           " 15\,h\,40 — 16\,h\,00 \quad Pause café";
           "\end{separatorbox}}\\[2mm]" ]
    /\ lunch_break
       = {| Speaker := "--- Lunch Break ---"; Title := "";
            Start := 720; End_ := 840; ID := -1; Online := -1 |}
    /\ coffee_break
       = {| Speaker := "--- Coffee Break ---"; Title := "";
            Start := 940; End_ := 960; ID := -1; Online := -1 |}.
Proof.
  intros tw sw title start stop id online lunch coffee.
  assert (forall a b c : string, (a +++ b) +++ c = a +++ b +++ c) as A.
  { intros a b c. induction a; cbn [append]; [reflexivity|now f_equal]. }
  split; [|split; [|split; [|split]]].
  - unfold render_entry, break_times, tabularx_open.
    cbn [Speaker Start End_ lunch].
    replace (contains "Lunch" "--- Lunch Break ---") with true
      by reflexivity.
    now rewrite !A.
  - unfold render_entry, break_times. cbn [Speaker Start End_ coffee].
    replace (contains "Lunch" "--- Coffee Break ---") with false
      by reflexivity.
    replace (contains "Coffee" "--- Coffee Break ---") with true
      by reflexivity.
    now rewrite !A.
  - unfold render_entry. cbn [Speaker coffee].
    replace (contains "Lunch" "--- Coffee Break ---") with false
      by reflexivity.
    replace (contains "Coffee" "--- Coffee Break ---") with true
      by reflexivity.
    repeat constructor.
    apply contains_first_char. rewrite has_char_append, break_times_no_t.
    reflexivity.
  - intros before after s. unfold schedule_block, tabularx_open.
    rewrite flat_map_app. cbn [flat_map].
    rewrite <- !app_assoc. reflexivity.
  - repeat split; reflexivity.
Qed.

(** ** The kind of an entry is read off its speaker *)

(** C10, as the script behaves.  The renderer and the summary look only
    at the speaker text: an entry whose speaker contains "Lunch" is
    rendered and printed exactly as the lunch break placed at its times,
    whatever its ID, title and online flag; an entry whose speaker
    contains "Coffee" and not "Lunch" exactly as the coffee break; any
    other entry gives one talk row and one talk line. *)
Theorem kind_is_decided_by_speaker :
  forall tw sw s,
    (contains "Lunch" (Speaker s) = true ->
     let b := break_entry "--- Lunch Break ---" (Start s) (End_ s) in
     render_entry tw sw s = render_entry tw sw b
     /\ summary_line s = summary_line b)
    /\
    (contains "Lunch" (Speaker s) = false ->
     contains "Coffee" (Speaker s) = true ->
     let b := break_entry "--- Coffee Break ---" (Start s) (End_ s) in
     render_entry tw sw s = render_entry tw sw b
     /\ summary_line s = summary_line b)
    /\
    (contains "Lunch" (Speaker s) = false ->
     contains "Coffee" (Speaker s) = false ->
     render_entry tw sw s
     = [ "\" +++ (if Online s =? 1 then "onlinetalk" else "talk") +++ "{"
         +++ strftime_H (Start s) +++ "}{" +++ strftime_M (Start s) +++ "}{"
         +++ Speaker s +++ "}{" +++ Title s +++ "}" ]
     /\ summary_line s
        = strftime_HM (Start s) +++ "–" +++ strftime_HM (End_ s) +++ " "
          +++ format_3d (ID s) +++ " " +++ format_20s (Speaker s) +++ " "
          +++ Title s).
Proof.
  intros tw sw s. split; [|split].
  - intros L b. unfold render_entry, summary_line, break_times.
    rewrite L. subst b. cbn [Speaker Start End_ break_entry].
    replace (contains "Lunch" "--- Lunch Break ---") with true
      by reflexivity.
    split; reflexivity.
  - intros L C b. unfold render_entry, summary_line, break_times.
    rewrite L, C. subst b. cbn [Speaker Start End_ break_entry].
    replace (contains "Lunch" "--- Coffee Break ---") with false
      by reflexivity.
    replace (contains "Coffee" "--- Coffee Break ---") with true
      by reflexivity.
    split; reflexivity.
  - intros L C. unfold render_entry, summary_line. rewrite L, C.
    split; reflexivity.
Qed.

Lemma kind_is_decided_by_speaker_witness :
  (let s := talk_entry (mkTalk "Jean" "Lunchet" "Ondes" 20 1) 4 565 595 in
   let b := break_entry "--- Lunch Break ---" (Start s) (End_ s) in
   render_entry "12mm" "48mm" s = render_entry "12mm" "48mm" b
   /\ summary_line s = summary_line b)
  /\
  (let s := talk_entry (mkTalk "Ana" "Coffee" "Jets" 20 0) 5 565 595 in
   let b := break_entry "--- Coffee Break ---" (Start s) (End_ s) in
   render_entry "12mm" "48mm" s = render_entry "12mm" "48mm" b
   /\ summary_line s = summary_line b)
  /\
  (let s := talk_entry (row_of 20) 6 565 595 in
   render_entry "12mm" "48mm" s = [ "\talk{09}{25}{Ada Lovelace}{Notes}" ]
   /\ summary_line s = "09:25–09:55   6 Ada Lovelace         Notes").
Proof.
  split; [|split].
  - exact (proj1 (kind_is_decided_by_speaker "12mm" "48mm"
             (talk_entry (mkTalk "Jean" "Lunchet" "Ondes" 20 1) 4 565 595))
             eq_refl).
  - exact (proj1 (proj2 (kind_is_decided_by_speaker "12mm" "48mm"
             (talk_entry (mkTalk "Ana" "Coffee" "Jets" 20 0) 5 565 595)))
             eq_refl eq_refl).
  - exact (proj2 (proj2 (kind_is_decided_by_speaker "12mm" "48mm"
             (talk_entry (row_of 20) 6 565 595)))
             eq_refl eq_refl).
Defined.

(** C10 as stated fails where the speaker contains both words: "Lunch" is
    looked for first, so the entry is a lunch break and not a coffee
    break. *)
Lemma coffee_and_lunch_counterexample :
  let s := talk_entry (mkTalk "Coffee" "Lunch" "Beans" 20 0) 3 565 595 in
  let coffee := break_entry "--- Coffee Break ---" (Start s) (End_ s) in
  let lunch := break_entry "--- Lunch Break ---" (Start s) (End_ s) in
  contains "Coffee" (Speaker s) = true
  /\ render_entry "12mm" "48mm" s <> render_entry "12mm" "48mm" coffee
  /\ summary_line s <> summary_line coffee
  /\ render_entry "12mm" "48mm" s = render_entry "12mm" "48mm" lunch
  /\ summary_line s = summary_line lunch.
Proof.
  cbv zeta. split; [reflexivity|].
  split; [vm_compute; discriminate|].
  split; [vm_compute; discriminate|].
  split; reflexivity.
Qed.

(** ** Reading the summary back *)

Lemma append_assoc (a b c : string) : (a +++ b) +++ c = a +++ b +++ c.
Proof. induction a; cbn [append]; [reflexivity|now f_equal]. Qed.

Lemma two_digits_value (n : Z) : (n / 10) * 10 + n mod 10 = n.
Proof. pose proof (Z.div_mod n 10 ltac:(lia)). lia. Qed.

Lemma time_of_day_hour_minute (d : Datetime.t) :
  Datetime.hour d * 60 + Datetime.minute d = time_of_day d.
Proof.
  unfold Datetime.hour, Datetime.minute, time_of_day.
  change 1440 with (60 * 24). rewrite Z.rem_mul_r by lia. lia.
Qed.

Lemma parse_HM_strftime (d : Datetime.t) (rest : string) :
  parse_HM (strftime_HM d +++ rest) = Some (time_of_day d, rest).
Proof.
  unfold strftime_HM, strftime_H, strftime_M, two_digits.
  cbn [append parse_HM].
  destruct (tens_units (Datetime.hour d)) as [H1 H0];
    [pose proof (hour_bounds d); lia|].
  destruct (tens_units (Datetime.minute d)) as [M1 M0];
    [pose proof (minute_bounds d); lia|].
  rewrite !parse_digit_digit by assumption.
  rewrite !two_digits_value, time_of_day_hour_minute. reflexivity.
Qed.

Lemma parse_times_strftime (a b : Datetime.t) (rest : string) :
  parse_times (strftime_HM a +++ "–" +++ strftime_HM b +++ rest)
  = Some (time_of_day a, time_of_day b, rest).
Proof.
  unfold parse_times. rewrite parse_HM_strftime.
  cbn [append strip_prefix Ascii.eqb Bool.eqb].
  now rewrite parse_HM_strftime.
Qed.

Lemma strip_prefix_LF_strftime (d : Datetime.t) (rest : string) :
  strip_prefix LF (strftime_HM d +++ rest) = None.
Proof.
  unfold strftime_HM, strftime_H, two_digits. cbn [append strip_prefix LF].
  destruct (tens_units (Datetime.hour d)) as [H1 _];
    [pose proof (hour_bounds d); lia|].
  rewrite has_char_digit; [reflexivity|exact H1|left; reflexivity].
Qed.

Lemma strip_prefix_LF (rest : string) :
  strip_prefix LF (LF +++ rest) = Some rest.
Proof. reflexivity. Qed.

Lemma skip_spaces_spaces (n : nat) (s : string) :
  skip_spaces (spaces n +++ s) = skip_spaces s.
Proof. induction n as [|n IH]; [reflexivity|exact IH]. Qed.

Lemma skip_spaces_token (tok rest : string) :
  tok <> "" -> has_char " " tok = false ->
  skip_spaces (tok +++ rest) = tok +++ rest.
Proof.
  destruct tok as [|c tok]; [congruence|]. intros _ H.
  cbn [has_char] in H. apply orb_false_iff in H as [H _].
  cbn [append skip_spaces]. rewrite Ascii.eqb_sym, H. reflexivity.
Qed.

Lemma take_token_token (tok rest : string) :
  has_char " " tok = false ->
  take_token (tok +++ String " " rest) = tok.
Proof.
  induction tok as [|c tok IH]; [reflexivity|].
  cbn [has_char append take_token]. intros H.
  apply orb_false_iff in H as [H1 H2].
  rewrite Ascii.eqb_sym, H1. now rewrite IH.
Qed.

Lemma string_of_uint_no_space (d : Decimal.uint) :
  has_char " " (NilEmpty.string_of_uint d) = false.
Proof. induction d; cbn [NilEmpty.string_of_uint has_char]; auto. Qed.

Lemma str_of_int_no_space (n : Z) : has_char " " (str_of_int n) = false.
Proof.
  unfold str_of_int. destruct (Z.to_int n) as [d|d];
    cbn [NilEmpty.string_of_int has_char];
    now rewrite string_of_uint_no_space.
Qed.

Lemma str_of_int_nonempty (n : Z) : str_of_int n <> "".
Proof.
  unfold str_of_int. destruct n as [|p|p]; cbn; try discriminate.
  pose proof (DecimalPos.Unsigned.to_uint_nonnil p) as H.
  destruct (Pos.to_uint p); [congruence|discriminate..].
Qed.

Lemma parse_format_3d (n : Z) (rest : string) :
  NilEmpty.int_of_string
    (take_token (skip_spaces (format_3d n +++ String " " rest)))
  = Some (Z.to_int n).
Proof.
  unfold format_3d. rewrite append_assoc, skip_spaces_spaces.
  rewrite skip_spaces_token
    by (apply str_of_int_nonempty || apply str_of_int_no_space).
  rewrite take_token_token by apply str_of_int_no_space.
  apply NilEmpty.isi.
Qed.

(** C9, as the script behaves.  Reading a printed entry back gives the
    hour and minute of its start and of its end and, for an entry printed
    as a talk row, its ID; a break line carries no ID.  The day is not
    printed: the times themselves are recovered when they fall on the
    first day (1900-01-01, the day of [START_TIME]). *)
Theorem summary_line_is_read_back :
  forall s,
    parse_summary_line (summary_line s)
    = Some (time_of_day (Start s), time_of_day (End_ s),
            if printed_as_break s then None else Some (ID s))
    /\
    (0 <= Start s < 1440 -> 0 <= End_ s < 1440 ->
     parse_summary_line (summary_line s)
     = Some (Start s, End_ s,
             if printed_as_break s then None else Some (ID s))).
Proof.
  intros s.
  assert (parse_summary_line (summary_line s)
          = Some (time_of_day (Start s), time_of_day (End_ s),
                  if printed_as_break s then None else Some (ID s))) as H.
  { unfold summary_line, printed_as_break, parse_summary_line.
    destruct (contains "Lunch" (Speaker s)); [|
      destruct (contains "Coffee" (Speaker s))]; cbn [orb].
    - now rewrite strip_prefix_LF, parse_times_strftime.
    - now rewrite strip_prefix_LF, parse_times_strftime.
    - rewrite strip_prefix_LF_strftime, parse_times_strftime.
      cbn [append]. rewrite parse_format_3d. now rewrite DecimalZ.of_to. }
  split; [exact H|].
  intros Hs He. rewrite H. unfold time_of_day.
  now rewrite !Z.mod_small by assumption.
Qed.

Lemma summary_line_is_read_back_witness :
  parse_summary_line
    (summary_line (talk_entry (row_of 50) 11 (Datetime.strptime_HM 9 25)
                     (Datetime.strptime_HM 10 25)))
  = Some (Datetime.strptime_HM 9 25, Datetime.strptime_HM 10 25, Some 11)
  /\ parse_summary_line (summary_line lunch_break)
     = Some (LUNCH_START, LUNCH_END, None).
Proof.
  split.
  - apply (proj2 (summary_line_is_read_back
                    (talk_entry (row_of 50) 11 (Datetime.strptime_HM 9 25)
                       (Datetime.strptime_HM 10 25)))); cbn; lia.
  - apply (proj2 (summary_line_is_read_back lunch_break)); cbn; lia.
Defined.

(** C9 as stated fails.  Two tables whose talk lengths differ by a day give
    schedules with the same summary and different end times; and of two
    rows of a speaker named Lunch, scheduling one or the other gives the
    same summary and different IDs.  So no reading of the summary recovers
    the end times and the IDs of every schedule. *)
Lemma summary_round_trip_counterexample :
  (exists s1 s2,
     build_schedule [row_of 2000] [0] = Ok s1
     /\ build_schedule [row_of 3440] [0] = Ok s2
     /\ map summary_line s1 = map summary_line s2
     /\ map End_ s1 <> map End_ s2)
  /\
  (exists s1 s2,
     let df := [mkTalk "Paul" "Lunch" "Waves" 20 0;
                mkTalk "Paul" "Lunch" "Waves" 20 0] in
     build_schedule df [0] = Ok s1
     /\ build_schedule df [1] = Ok s2
     /\ map summary_line s1 = map summary_line s2
     /\ map ID s1 <> map ID s2)
  /\
  ~ exists parse : string -> option (Z * Z * Z),
      forall df order schedule,
        build_schedule df order = Ok schedule ->
        map parse (map summary_line schedule)
        = map (fun s => Some (Start s, End_ s, ID s)) schedule.
Proof.
  split; [|split].
  - eexists. eexists. split; [reflexivity|]. split; [reflexivity|].
    split; [vm_compute; reflexivity|vm_compute; discriminate].
  - eexists. eexists. cbv zeta. split; [reflexivity|].
    split; [reflexivity|].
    split; [vm_compute; reflexivity|vm_compute; discriminate].
  - intros (parse & H).
    pose proof (H [row_of 2000] [0]
                  [lunch_break; coffee_break;
                   talk_entry (row_of 2000) 0 960 2970] eq_refl) as H1.
    pose proof (H [row_of 3440] [0]
                  [lunch_break; coffee_break;
                   talk_entry (row_of 3440) 0 960 4410] eq_refl) as H2.
    vm_compute in H1, H2. congruence.
Qed.

(** * Properties of the driver *)

Lemma fold_print_world (schedule : list entry) :
  forall w,
    let w' := fold_left (fun w s => print (summary_line s) w) schedule w in
    files w' = files w /\ writable w' = writable w /\ stdin w' = stdin w.
Proof.
  induction schedule as [|s rest IH]; intros w; cbn [fold_left]; [auto|].
  destruct (IH (print (summary_line s) w)) as (F & W & I).
  cbv zeta. rewrite F, W, I. auto.
Qed.

Lemma print_summary_world (schedule : list entry) (w : World) :
  files (print_summary schedule w) = files w
  /\ writable (print_summary schedule w) = writable w
  /\ stdin (print_summary schedule w) = stdin w.
Proof.
  unfold print_summary.
  destruct (fold_print_world schedule (print (LF +++ "Generated Schedule:") w))
    as (F & W & I).
  rewrite F, W, I. auto.
Qed.

(** C7, as the script behaves.  The answer is stripped of surrounding
    white space and lowered before it is compared with "yes".  When the
    result is not "yes" the run ends normally with exit status 0, every
    file is as it was, and the console shows the summary, then the
    question, then the farewell line.  A file differs after the run only
    when the stripped, lowered answer is "yes". *)
Theorem declined_confirmation_writes_nothing :
  forall df order schedule w line rest,
    build_schedule df order = Ok schedule ->
    stdin w = line :: rest ->
    (lower (strip line) <> "yes" ->
     snd (main df order w) = Ok tt
     /\ exit_code (snd (main df order w)) = 0
     /\ files (fst (main df order w)) = files w
     /\ stdout (fst (main df order w))
        = (stdout (print_summary schedule w)
           +++ LF +++ "Create Latex output for this schedule? (yes/NO): ")
          +++ (LF +++ "Exit.") +++ LF)
    /\
    ((exists path, files (fst (main df order w)) path <> files w path) ->
     lower (strip line) = "yes").
Proof.
  intros df order schedule w line rest B I.
  destruct (print_summary_world schedule w) as (F & _ & S).
  assert (lower (strip line) <> "yes" ->
          main df order w
          = (print (LF +++ "Exit.")
               (fst (input (LF +++ "Create Latex output for this schedule? (yes/NO): ")
                       (print_summary schedule w))),
             Ok tt)) as M.
  { intros N. unfold main. rewrite B. unfold input. rewrite S, I.
    apply String.eqb_neq in N. rewrite N. reflexivity. }
  split.
  - intros N. rewrite (M N). cbn [fst snd exit_code].
    unfold input. rewrite S, I. cbn [fst print files stdout].
    repeat split; auto.
  - intros (path & D).
    destruct (String.eqb_spec (lower (strip line)) "yes") as [Y|N];
      [exact Y|].
    exfalso. apply D. rewrite (M N). cbn [fst].
    unfold input. rewrite S, I. cbn [fst print files]. now rewrite F.
Qed.

Lemma declined_confirmation_writes_nothing_witness :
  (snd (main [row_of 50] [0] (console ["no"])) = Ok tt
   /\ exit_code (snd (main [row_of 50] [0] (console ["no"]))) = 0
   /\ files (fst (main [row_of 50] [0] (console ["no"])))
      = files (console ["no"])
   /\ stdout (fst (main [row_of 50] [0] (console ["no"])))
      = (stdout (print_summary
                   [talk_entry (row_of 50) 0 565 625] (console ["no"]))
         +++ LF +++ "Create Latex output for this schedule? (yes/NO): ")
        +++ (LF +++ "Exit.") +++ LF)
  /\ lower (strip "  Yes ") = "yes".
Proof.
  split.
  - apply (proj1 (declined_confirmation_writes_nothing
                    [row_of 50] [0] [talk_entry (row_of 50) 0 565 625]
                    (console ["no"]) "no" [] eq_refl eq_refl)).
    vm_compute. discriminate.
  - apply (proj2 (declined_confirmation_writes_nothing
                    [row_of 50] [0] [talk_entry (row_of 50) 0 565 625]
                    (console ["  Yes "]) "  Yes " [] eq_refl eq_refl)).
    exists "jdd_schedule.tex". vm_compute. discriminate.
Defined.

(** C7 as stated fails: an answer with white space around the word is not
    "yes" up to case, and yet the document is written. *)
Lemma padded_yes_counterexample :
  lower " yes" <> "yes"
  /\ snd (main [row_of 50] [0] (console [" yes"])) = Ok tt
  /\ files (console [" yes"]) "jdd_schedule.tex" = None
  /\ files (fst (main [row_of 50] [0] (console [" yes"]))) "jdd_schedule.tex"
     = Some (join LF ([header]
                      ++ schedule_block "12mm" "48mm"
                           [talk_entry (row_of 50) 0 565 625]
                      ++ [footer])).
Proof.
  split; [vm_compute; discriminate|].
  split; [vm_compute; reflexivity|].
  split; vm_compute; reflexivity.
Qed.

(** ** Determinism *)

Lemma generate_jdd_latex_text (schedule : list entry) (tw sw : string)
    (filename : option string) (w : World) (text : string) :
  snd (generate_jdd_latex schedule tw sw filename w) = Ok text ->
  text = join LF ([header] ++ schedule_block tw sw schedule ++ [footer]).
Proof.
  unfold generate_jdd_latex, write_file.
  destruct filename as [[|c name]|]; cbn [snd]; try congruence.
  destruct (writable w (String c name)); cbn [snd]; congruence.
Qed.

(** C8. The schedule is a function of the table and the order (the
    constants are fixed), and the document text is a function of the
    schedule and the column widths: it does not depend on the file system,
    on the console or on the file name.  Rendering a second time returns
    the same text and leaves every file as the first rendering left it. *)
Theorem scheduling_and_rendering_deterministic :
  (forall df1 df2 order1 order2,
     df1 = df2 -> order1 = order2 ->
     build_schedule df1 order1 = build_schedule df2 order2)
  /\
  (forall schedule1 schedule2 tw1 tw2 sw1 sw2 filename1 filename2 w1 w2
          text1 text2,
     schedule1 = schedule2 -> tw1 = tw2 -> sw1 = sw2 ->
     snd (generate_jdd_latex schedule1 tw1 sw1 filename1 w1) = Ok text1 ->
     snd (generate_jdd_latex schedule2 tw2 sw2 filename2 w2) = Ok text2 ->
     text1 = text2)
  /\
  (forall schedule tw sw filename w w1 text,
     generate_jdd_latex schedule tw sw filename w = (w1, Ok text) ->
     snd (generate_jdd_latex schedule tw sw filename w1) = Ok text
     /\ forall path,
          files (fst (generate_jdd_latex schedule tw sw filename w1)) path
          = files w1 path).
Proof.
  split; [|split].
  - intros df1 df2 order1 order2 -> ->. reflexivity.
  - intros s1 s2 tw1 tw2 sw1 sw2 f1 f2 w1 w2 t1 t2 -> -> -> H1 H2.
    apply generate_jdd_latex_text in H1, H2. congruence.
  - intros schedule tw sw filename w w1 text.
    unfold generate_jdd_latex, write_file.
    destruct filename as [[|c name]|]; try (intros [= <- <-]; auto).
    destruct (writable w (String c name)) eqn:W; [|discriminate].
    intros [= <- <-]. cbn [writable]. rewrite W. cbn [fst snd files].
    split; [reflexivity|].
    intros path. now destruct (String.eqb path (String c name)).
Qed.

Lemma scheduling_and_rendering_deterministic_witness :
  build_schedule [row_of 50; row_of 100] [1; 0]
  = build_schedule [row_of 50; row_of 100] [1; 0]
  /\
  join LF ([header] ++ schedule_block "12mm" "48mm" [lunch_break] ++ [footer])
  = join LF ([header] ++ schedule_block "12mm" "48mm" [lunch_break] ++ [footer])
  /\
  (snd (generate_jdd_latex [coffee_break] "12mm" "48mm" (Some "out.tex")
          (fst (generate_jdd_latex [coffee_break] "12mm" "48mm"
                  (Some "out.tex") (console []))))
   = Ok (join LF ([header] ++ schedule_block "12mm" "48mm" [coffee_break]
                  ++ [footer]))
   /\ forall path,
        files (fst (generate_jdd_latex [coffee_break] "12mm" "48mm"
                      (Some "out.tex")
                      (fst (generate_jdd_latex [coffee_break] "12mm" "48mm"
                              (Some "out.tex") (console []))))) path
        = files (fst (generate_jdd_latex [coffee_break] "12mm" "48mm"
                        (Some "out.tex") (console []))) path).
Proof.
  split; [|split].
  - exact (proj1 scheduling_and_rendering_deterministic
             [row_of 50; row_of 100] [row_of 50; row_of 100] [1; 0] [1; 0]
             eq_refl eq_refl).
  - exact (proj1 (proj2 scheduling_and_rendering_deterministic)
             [lunch_break] [lunch_break] "12mm" "12mm" "48mm" "48mm"
             None (Some "out.tex") (console []) (console ["x"]) _ _
             eq_refl eq_refl eq_refl eq_refl eq_refl).
  - exact (proj2 (proj2 scheduling_and_rendering_deterministic)
             [coffee_break] "12mm" "48mm" (Some "out.tex") (console []) _ _
             eq_refl).
Defined.

(** * Further properties of the scheduler *)

(** ** The shape of a day *)

(** Equal lists up to the bracketing of [++] and [::]. *)
Ltac same_list :=
  repeat (rewrite <- app_assoc || rewrite <- app_comm_cons); reflexivity.

Lemma iteration_day_shape (row : TalkRecord) (idx : Z) (st : loop_state) :
  0 < TIME row + 10 ->
  day_shape st -> day_shape (iteration_spec row idx st).
Proof.
  intros Hs D. destruct st as [schedule current_time].
  unfold iteration_spec, lunch_rule, coffee_rule. cbn [fst snd] in *.
  set (slot := TIME row + 10) in *.
  pose proof (break_rule_inserts "--- Lunch Break ---" LUNCH_START
                LUNCH_END current_time slot) as HL.
  cbv zeta in HL.
  set (after_lunch := break_insertion_rule "--- Lunch Break ---"
                        LUNCH_START LUNCH_END current_time slot) in *.
  pose proof (break_rule_inserts "--- Coffee Break ---" COFFEE_START
                COFFEE_END (snd after_lunch) slot) as HC.
  cbv zeta in HC.
  set (after_coffee := break_insertion_rule "--- Coffee Break ---"
                         COFFEE_START COFFEE_END (snd after_lunch) slot)
    in *.
  rewrite <- lunch_break_entry in HL. rewrite <- coffee_break_entry in HC.
  assert (LUNCH_START = 720 /\ LUNCH_END = 840 /\ COFFEE_START = 940
          /\ COFFEE_END = 960) as (E1 & E2 & E3 & E4) by (now cbv).
  set (talk := talk_entry row idx (snd after_coffee) (snd after_coffee + slot)).
  assert (Start talk = snd after_coffee
          /\ End_ talk = snd after_coffee + slot) as (Ts & Te) by (now split).
  clearbody talk.
  destruct HL as [(L1 & L2 & L3)|(L1 & L2 & L3)];
    destruct HC as [(C1 & C2 & C3)|(C1 & C2 & C3)];
    rewrite L1, C1; cbn [List.app].
  - (* no break *)
    destruct D as [(M & Hc)|[(m & a & E & Na & M & A & Hc)
                            |(m & a & e & E & Ne & M & A & V & Hc)]];
      cbn [fst snd] in *.
    + left. split; cbn [fst snd]; [|lia].
      apply Forall_app. split; [exact M|]. repeat constructor. lia.
    + right. left. exists m, (a ++ [talk]). cbn [fst snd].
      repeat split; try lia.
      * rewrite E. same_list.
      * now destruct a.
      * exact M.
      * apply Forall_app. split; [exact A|]. repeat constructor; lia.
    + right. right. exists m, a, (e ++ [talk]). cbn [fst snd].
      repeat split; try lia.
      * rewrite E. same_list.
      * now destruct e.
      * exact M.
      * exact A.
      * apply Forall_app. split; [exact V|]. repeat constructor; lia.
  - (* coffee alone *)
    destruct D as [(M & Hc)|[(m & a & E & Na & M & A & Hc)
                            |(m & a & e & E & Ne & M & A & V & Hc)]];
      cbn [fst snd] in *; try lia.
    right. right. exists m, a, [talk]. cbn [fst snd].
    repeat split; try lia; try assumption.
    + rewrite E. same_list.
    + discriminate.
    + repeat constructor; lia.
  - (* lunch alone *)
    destruct D as [(M & Hc)|[(m & a & E & Na & M & A & Hc)
                            |(m & a & e & E & Ne & M & A & V & Hc)]];
      cbn [fst snd] in *; try lia.
    right. left. exists schedule, [talk]. cbn [fst snd].
    repeat split; try lia; try assumption.
    + discriminate.
    + repeat constructor; lia.
  - (* lunch, then coffee *)
    destruct D as [(M & Hc)|[(m & a & E & Na & M & A & Hc)
                            |(m & a & e & E & Ne & M & A & V & Hc)]];
      cbn [fst snd] in *; try lia.
    right. right. exists schedule, [], [talk]. cbn [fst snd].
    repeat split; try lia; try assumption.
    + discriminate.
    + constructor.
    + repeat constructor; lia.
Qed.

Lemma run_loop_extends (df : DataFrame) (order : list Z)
    (st st' : loop_state) :
  run_loop df order st = Ok st' -> exists more, fst st' = fst st ++ more.
Proof.
  intros H. apply run_loop_chunks in H as (chunks & E & _). eauto.
Qed.

Section PositiveDay.

Variable df : DataFrame.
Hypothesis positive : positive_durations df.

Lemma run_loop_day_shape (order : list Z) :
  forall st st',
    day_shape st -> run_loop df order st = Ok st' -> day_shape st'.
Proof.
  induction order as [|idx rest IH]; intros st st' D H.
  - now injection H as <-.
  - apply run_loop_cons in H as (row & I & _ & H).
    eapply IH; [|exact H]. apply iteration_day_shape; [|exact D].
    eapply positive_slot; eauto.
Qed.

Lemma build_schedule_day_shape (order : list Z) (schedule : list entry) :
  build_schedule df order = Ok schedule ->
  exists current_time, day_shape (schedule, current_time).
Proof.
  intros H. apply build_schedule_ok in H as (c & H). exists c.
  eapply run_loop_day_shape; [|exact H].
  left. split; cbn; [constructor|discriminate].
Qed.

End PositiveDay.

Lemma iteration_day_plan (row : TalkRecord) (idx : Z) (st : loop_state) :
  0 < TIME row + 10 ->
  day_plan st -> day_plan (iteration_spec row idx st).
Proof.
  intros Hs D. destruct st as [schedule current_time].
  unfold iteration_spec, lunch_rule, coffee_rule. cbn [fst snd] in *.
  set (slot := TIME row + 10) in *.
  pose proof (break_rule_inserts "--- Lunch Break ---" LUNCH_START
                LUNCH_END current_time slot) as HL.
  cbv zeta in HL.
  set (after_lunch := break_insertion_rule "--- Lunch Break ---"
                        LUNCH_START LUNCH_END current_time slot) in *.
  pose proof (break_rule_inserts "--- Coffee Break ---" COFFEE_START
                COFFEE_END (snd after_lunch) slot) as HC.
  cbv zeta in HC.
  set (after_coffee := break_insertion_rule "--- Coffee Break ---"
                         COFFEE_START COFFEE_END (snd after_lunch) slot)
    in *.
  rewrite <- lunch_break_entry in HL. rewrite <- coffee_break_entry in HC.
  assert (LUNCH_START = 720 /\ LUNCH_END = 840 /\ COFFEE_START = 940
          /\ COFFEE_END = 960) as (E1 & E2 & E3 & E4) by (now cbv).
  set (talk := talk_entry row idx (snd after_coffee) (snd after_coffee + slot)).
  assert (Start talk = snd after_coffee
          /\ End_ talk = snd after_coffee + slot
          /\ slot_of talk = slot) as (Ts & Te & Tl).
  { unfold slot_of, talk. cbn [Start End_ talk_entry].
    repeat split. lia. }
  clearbody talk.
  destruct HL as [(L1 & L2 & L3)|(L1 & L2 & L3)];
    destruct HC as [(C1 & C2 & C3)|(C1 & C2 & C3)];
    rewrite L1, C1; cbn [List.app].
  - (* no break *)
    destruct D as [(M & Hc & Hl)
                  |[(m & t & r & E & M & A & St & Tr & Hl & Hc)
                   |(m & a & t & r & E & M & A & V & St & Tc & Tr & Hc)]];
      cbn [fst snd] in *.
    + left. repeat split; cbn [fst snd].
      * apply Forall_app. split; [exact M|]. repeat constructor. lia.
      * lia.
      * rewrite last_end_app. cbn [last_end]. lia.
    + right. left. exists m, t, (r ++ [talk]). cbn [fst snd].
      split; [rewrite E; same_list|].
      split; [exact M|]. split.
      { rewrite app_comm_cons. apply Forall_app. split; [exact A|].
        repeat constructor; lia. }
      split; [exact St|]. split; [exact Tr|]. split.
      { rewrite app_comm_cons, last_end_app. cbn [last_end]. lia. }
      lia.
    + right. right. exists m, a, t, (r ++ [talk]). cbn [fst snd].
      split; [rewrite E; same_list|].
      split; [exact M|]. split; [exact A|]. split.
      { rewrite app_comm_cons. apply Forall_app. split; [exact V|].
        repeat constructor; lia. }
      split; [exact St|]. split; [exact Tc|]. split; [exact Tr|]. lia.
  - (* coffee alone *)
    destruct D as [(M & Hc & Hl)
                  |[(m & t & r & E & M & A & St & Tr & Hl & Hc)
                   |(m & a & t & r & E & M & A & V & St & Tc & Tr & Hc)]];
      cbn [fst snd] in *; try lia.
    right. right. exists m, (t :: r), talk, []. cbn [fst snd].
    split; [rewrite E; same_list|].
    split; [exact M|]. split; [exact A|]. split.
    { repeat constructor; lia. }
    split; [lia|]. split; [lia|]. split; [now split|]. lia.
  - (* lunch alone *)
    destruct D as [(M & Hc & Hl)
                  |[(m & t & r & E & M & A & St & Tr & Hl & Hc)
                   |(m & a & t & r & E & M & A & V & St & Tc & Tr & Hc)]];
      cbn [fst snd] in *; try lia.
    right. left. exists schedule, talk, []. cbn [fst snd].
    split; [reflexivity|]. split; [exact M|]. split.
    { repeat constructor; lia. }
    split; [lia|]. split; [lia|]. split; [cbn [last_end]; lia|]. lia.
  - (* lunch, then coffee *)
    destruct D as [(M & Hc & Hl)
                  |[(m & t & r & E & M & A & St & Tr & Hl & Hc)
                   |(m & a & t & r & E & M & A & V & St & Tc & Tr & Hc)]];
      cbn [fst snd] in *; try lia.
    right. right. exists schedule, [], talk, []. cbn [fst snd].
    split; [reflexivity|]. split; [exact M|]. split; [constructor|]. split.
    { repeat constructor; lia. }
    split; [lia|]. split; [cbn [last_end]; lia|]. split; [lia|]. lia.
Qed.

Section PositivePlan.

Variable df : DataFrame.
Hypothesis positive : positive_durations df.

Lemma run_loop_day_plan (order : list Z) :
  forall st st',
    day_plan st -> run_loop df order st = Ok st' -> day_plan st'.
Proof.
  induction order as [|idx rest IH]; intros st st' D H.
  - now injection H as <-.
  - apply run_loop_cons in H as (row & I & _ & H).
    eapply IH; [|exact H]. apply iteration_day_plan; [|exact D].
    eapply positive_slot; eauto.
Qed.

Lemma build_schedule_day_plan (order : list Z) (schedule : list entry) :
  build_schedule df order = Ok schedule ->
  exists current_time, day_plan (schedule, current_time).
Proof.
  intros H. apply build_schedule_ok in H as (c & H). exists c.
  eapply run_loop_day_plan; [|exact H].
  left. repeat split; cbn; [constructor|discriminate].
Qed.

End PositivePlan.

(** X1. With positive durations the schedule is the morning talks (all
    ending by 12:00), then possibly the lunch break and the afternoon
    talks (all between 14:00 and 15:40), then possibly the coffee break
    and the late talks (all starting at 16:00 or later).  The lunch break
    is there only for a talk that did not fit before it: the talk that
    follows it (directly, or after the coffee break when there is no
    afternoon talk) starts at the end of the break and would have ended
    after 12:00 had it started when the morning ended.  Likewise the
    coffee break is directly followed by a talk that starts at 16:00 and
    would have ended after 15:40 had it started when the afternoon ended
    (at 14:00 when there is no afternoon talk).  The coffee break never
    comes without the lunch break before it, and the schedule never ends
    with a break. *)
Theorem day_is_morning_lunch_afternoon_coffee_evening :
  forall df order schedule,
    positive_durations df ->
    build_schedule df order = Ok schedule ->
    exists morning afternoon evening,
      Forall (fun e => End_ e <= LUNCH_START) morning
      /\ Forall (fun e => LUNCH_END <= Start e /\ End_ e <= COFFEE_START)
           afternoon
      /\ Forall (fun e => COFFEE_END <= Start e) evening
      /\ (schedule = morning /\ afternoon = [] /\ evening = []
          \/
          schedule = morning ++ lunch_break :: afternoon
          /\ evening = []
          /\ (exists t rest,
                afternoon = t :: rest
                /\ Start t = LUNCH_END
                /\ LUNCH_START
                   < last_end START_TIME morning + (End_ t - Start t))
          \/
          schedule
          = morning ++ lunch_break :: afternoon ++ coffee_break :: evening
          /\ (exists t rest,
                evening = t :: rest
                /\ Start t = COFFEE_END
                /\ COFFEE_START
                   < last_end LUNCH_END afternoon + (End_ t - Start t)
                /\ match afternoon with
                   | [] =>
                     LUNCH_START
                     < last_end START_TIME morning + (End_ t - Start t)
                   | a :: _ =>
                     Start a = LUNCH_END
                     /\ LUNCH_START
                        < last_end START_TIME morning + (End_ a - Start a)
                   end)).
Proof.
  intros df order schedule P H.
  destruct (build_schedule_day_plan df P order schedule H) as (c & D).
  destruct D as [(M & _)
                |[(m & t & r & E & M & A & St & Tr & _)
                 |(m & a & t & r & E & M & A & V & St & Tc & Tr & _)]];
    cbn [fst snd] in *.
  - exists schedule, [], []. repeat split; auto.
  - exists m, (t :: r), []. repeat split; auto.
    right. left. repeat split; auto. exists t, r. repeat split; auto.
  - exists m, a, (t :: r). repeat split; auto.
    right. right. split; [exact E|]. exists t, r. repeat split; auto.
Qed.

Lemma day_is_morning_lunch_afternoon_coffee_evening_witness :
  exists morning afternoon evening,
    Forall (fun e => End_ e <= LUNCH_START) morning
    /\ Forall (fun e => LUNCH_END <= Start e /\ End_ e <= COFFEE_START)
         afternoon
    /\ Forall (fun e => COFFEE_END <= Start e) evening
    /\ (example_day = morning /\ afternoon = [] /\ evening = []
        \/
        example_day = morning ++ lunch_break :: afternoon
        /\ evening = []
        /\ (exists t rest,
              afternoon = t :: rest
              /\ Start t = LUNCH_END
              /\ LUNCH_START
                 < last_end START_TIME morning + (End_ t - Start t))
        \/
        example_day
        = morning ++ lunch_break :: afternoon ++ coffee_break :: evening
        /\ (exists t rest,
              evening = t :: rest
              /\ Start t = COFFEE_END
              /\ COFFEE_START
                 < last_end LUNCH_END afternoon + (End_ t - Start t)
              /\ match afternoon with
                 | [] =>
                   LUNCH_START
                   < last_end START_TIME morning + (End_ t - Start t)
                 | a :: _ =>
                   Start a = LUNCH_END
                   /\ LUNCH_START
                      < last_end START_TIME morning + (End_ a - Start a)
                 end)).
Proof.
  apply (day_is_morning_lunch_afternoon_coffee_evening
           example_table example_order example_day).
  - positive_table.
  - reflexivity.
Defined.

(** X2. With positive durations no talk overlaps a break window: every
    entry of the schedule is one of the two breaks, or it ends by 12:00 or
    starts at 14:00 or later, and it ends by 15:40 or starts at 16:00 or
    later. *)
Theorem talks_avoid_break_windows :
  forall df order schedule,
    positive_durations df ->
    build_schedule df order = Ok schedule ->
    Forall
      (fun e =>
         e = lunch_break \/ e = coffee_break
         \/ (End_ e <= LUNCH_START \/ LUNCH_END <= Start e)
            /\ (End_ e <= COFFEE_START \/ COFFEE_END <= Start e))
      schedule.
Proof.
  intros df order schedule P H.
  destruct (build_schedule_day_shape df P order schedule H) as (c & D).
  assert (LUNCH_START = 720 /\ LUNCH_END = 840 /\ COFFEE_START = 940
          /\ COFFEE_END = 960) as (E1 & E2 & E3 & E4) by (now cbv).
  assert (forall l, Forall (fun e => End_ e <= LUNCH_START) l ->
            Forall (fun e => e = lunch_break \/ e = coffee_break
                      \/ (End_ e <= LUNCH_START \/ LUNCH_END <= Start e)
                         /\ (End_ e <= COFFEE_START
                             \/ COFFEE_END <= Start e)) l) as FM.
  { intros l F. eapply Forall_impl; [|exact F]. cbv beta. intros e He.
    right. right. lia. }
  assert (forall l,
            Forall (fun e => LUNCH_END <= Start e /\ End_ e <= COFFEE_START)
              l ->
            Forall (fun e => e = lunch_break \/ e = coffee_break
                      \/ (End_ e <= LUNCH_START \/ LUNCH_END <= Start e)
                         /\ (End_ e <= COFFEE_START
                             \/ COFFEE_END <= Start e)) l) as FA.
  { intros l F. eapply Forall_impl; [|exact F]. cbv beta. intros e He.
    right. right. lia. }
  assert (forall l, Forall (fun e => COFFEE_END <= Start e) l ->
            Forall (fun e => e = lunch_break \/ e = coffee_break
                      \/ (End_ e <= LUNCH_START \/ LUNCH_END <= Start e)
                         /\ (End_ e <= COFFEE_START
                             \/ COFFEE_END <= Start e)) l) as FE.
  { intros l F. eapply Forall_impl; [|exact F]. cbv beta. intros e He.
    right. right. lia. }
  destruct D as [(M & _)|[(m & a & E & Na & M & A & _)
                         |(m & a & e & E & Ne & M & A & V & _)]];
    cbn [fst snd] in *.
  - auto.
  - rewrite E. apply Forall_app. split; [auto|].
    constructor; [now left|auto].
  - rewrite E. apply Forall_app. split; [auto|].
    constructor; [now left|]. apply Forall_app. split; [auto|].
    constructor; [right; now left|auto].
Qed.

Lemma talks_avoid_break_windows_witness :
  Forall
    (fun e =>
       e = lunch_break \/ e = coffee_break
       \/ (End_ e <= LUNCH_START \/ LUNCH_END <= Start e)
          /\ (End_ e <= COFFEE_START \/ COFFEE_END <= Start e))
    example_day.
Proof.
  apply (talks_avoid_break_windows example_table example_order example_day).
  - positive_table.
  - reflexivity.
Defined.

(** ** Talks follow one another without idle time *)

Lemma back_to_back_app (l1 l2 : list entry) :
  forall lo,
    back_to_back lo (l1 ++ l2)
    <-> back_to_back lo l1 /\ back_to_back (last_end lo l1) l2.
Proof.
  induction l1 as [|e l1 IH]; intros lo; simpl.
  - tauto.
  - specialize (IH (End_ e)). tauto.
Qed.

Lemma back_to_back_neighbours (l : list entry) :
  forall lo i a b,
    back_to_back lo l ->
    nth_error l i = Some a -> nth_error l (S i) = Some b ->
    b = lunch_break \/ b = coffee_break \/ Start b = End_ a.
Proof.
  induction l as [|e l IH]; intros lo i a b B Ha Hb.
  - destruct i; discriminate.
  - destruct B as (_ & B). destruct i as [|i].
    + injection Ha as <-. destruct l as [|e' l]; [discriminate|].
      injection Hb as <-. now destruct B.
    + eapply IH; eauto.
Qed.

(** The loop invariant: the entries are back to back from [lo] and the
    last one ends at [current_time]. *)
Lemma iteration_back_to_back (row : TalkRecord) (idx lo : Z)
    (st : loop_state) :
  back_to_back lo (fst st) /\ last_end lo (fst st) = snd st ->
  let st' := iteration_spec row idx st in
  back_to_back lo (fst st') /\ last_end lo (fst st') = snd st'.
Proof.
  destruct st as [schedule current_time]. cbn [fst snd]. intros [B L].
  unfold iteration_spec, lunch_rule, coffee_rule, break_insertion_rule.
  cbn [fst snd].
  destruct (_ && _); cbn [fst snd];
    destruct (_ && _); cbn [fst snd];
    rewrite ?back_to_back_app, ?last_end_app, ?L;
    cbn [back_to_back last_end List.app break_entry talk_entry Start End_];
    repeat split; auto.
Qed.

Lemma run_loop_back_to_back (df : DataFrame) (lo : Z) (order : list Z) :
  forall st st',
    back_to_back lo (fst st) /\ last_end lo (fst st) = snd st ->
    run_loop df order st = Ok st' ->
    back_to_back lo (fst st') /\ last_end lo (fst st') = snd st'.
Proof.
  induction order as [|idx rest IH]; intros st st' B H.
  - now injection H as <-.
  - apply run_loop_cons in H as (row & I & _ & H).
    eapply IH; [|exact H]. now apply iteration_back_to_back.
Qed.

(** X3. Whatever the durations, a talk starts exactly when the entry
    before it ended: of two consecutive entries the later one is a break
    or starts at the end of the earlier one.  The first entry is the lunch
    break or starts at [START_TIME]. *)
Theorem talks_start_when_the_previous_entry_ends :
  forall df order schedule,
    build_schedule df order = Ok schedule ->
    (forall first,
       nth_error schedule 0 = Some first ->
       first = lunch_break \/ Start first = START_TIME)
    /\
    (forall i a b,
       nth_error schedule i = Some a ->
       nth_error schedule (S i) = Some b ->
       b = lunch_break \/ b = coffee_break \/ Start b = End_ a).
Proof.
  intros df order schedule H. apply build_schedule_ok in H as (c & H).
  split.
  - intros first F. destruct order as [|idx rest].
    + injection H as <- <-. discriminate.
    + apply run_loop_cons in H as (row & _ & _ & H).
      apply run_loop_extends in H as (more & E). cbn [fst] in E.
      rewrite E in F. clear E.
      unfold iteration_spec, lunch_rule, coffee_rule, break_insertion_rule
        in F.
      cbn [fst snd] in F.
      destruct (Z.leb_spec START_TIME LUNCH_START) as [A1|A1];
        [|now cbv in A1].
      destruct (Z.gtb_spec (START_TIME + (TIME row + 10)) LUNCH_START)
        as [A2|A2]; cbn [andb fst snd List.app] in F.
      * injection F as <-. now left.
      * destruct (Z.leb_spec START_TIME COFFEE_START) as [A3|A3];
          [|now cbv in A3].
        destruct (Z.gtb_spec (START_TIME + (TIME row + 10)) COFFEE_START)
          as [A4|A4]; cbn [andb fst snd List.app] in F.
        -- exfalso. revert A2 A4. unfold LUNCH_START, COFFEE_START,
             Datetime.strptime_HM. lia.
        -- injection F as <-. now right.
  - intros i a b Ha Hb.
    apply (run_loop_back_to_back df START_TIME order) in H as [B _];
      [|now split].
    eapply back_to_back_neighbours; eauto.
Qed.

Lemma talks_start_when_the_previous_entry_ends_witness :
  (lunch_break = lunch_break \/ Start lunch_break = START_TIME)
  /\ (talk_entry (row_of 200) 0 960 1170 = lunch_break
      \/ talk_entry (row_of 200) 0 960 1170 = coffee_break
      \/ Start (talk_entry (row_of 200) 0 960 1170) = End_ coffee_break).
Proof.
  destruct (talks_start_when_the_previous_entry_ends [row_of 200] [0]
              [lunch_break; coffee_break;
               talk_entry (row_of 200) 0 960 1170] eq_refl) as [H1 H2].
  split.
  - exact (H1 lunch_break eq_refl).
  - exact (H2 1%nat coffee_break _ eq_refl eq_refl).
Defined.

(** ** How long the day is and how many entries it has *)

Lemma iteration_end_bounds (row : TalkRecord) (idx : Z) (st : loop_state) :
  0 <= TIME row + 10 ->
  snd st + (TIME row + 10) <= snd (iteration_spec row idx st)
  /\ snd (iteration_spec row idx st)
     <= Z.max (snd st) COFFEE_END + (TIME row + 10).
Proof.
  intros Hs. unfold iteration_spec, lunch_rule, coffee_rule. cbn [snd].
  set (slot := TIME row + 10) in *.
  pose proof (break_rule_inserts "--- Lunch Break ---" LUNCH_START
                LUNCH_END (snd st) slot) as HL.
  cbv zeta in HL.
  set (after_lunch := break_insertion_rule "--- Lunch Break ---"
                        LUNCH_START LUNCH_END (snd st) slot) in *.
  pose proof (break_rule_inserts "--- Coffee Break ---" COFFEE_START
                COFFEE_END (snd after_lunch) slot) as HC.
  cbv zeta in HC.
  set (after_coffee := break_insertion_rule "--- Coffee Break ---"
                         COFFEE_START COFFEE_END (snd after_lunch) slot)
    in *.
  assert (LUNCH_START = 720 /\ LUNCH_END = 840 /\ COFFEE_START = 940
          /\ COFFEE_END = 960) as (E1 & E2 & E3 & E4) by (now cbv).
  destruct HL as [(_ & L2 & L3)|(_ & L2 & L3)];
    destruct HC as [(_ & C2 & C3)|(_ & C2 & C3)]; lia.
Qed.

Lemma iteration_length (row : TalkRecord) (idx : Z) (st : loop_state) :
  0 < TIME row + 10 ->
  let st' := iteration_spec row idx st in
  (List.length (fst st') + count_entry lunch_break (fst st)
     + count_entry coffee_break (fst st)
   = List.length (fst st) + 1 + count_entry lunch_break (fst st')
     + count_entry coffee_break (fst st'))%nat.
Proof.
  destruct st as [schedule current_time].
  unfold iteration_spec, lunch_rule, coffee_rule, break_insertion_rule.
  rewrite <- lunch_break_entry, <- coffee_break_entry.
  cbn [fst snd]. set (slot := TIME row + 10). intros Hs.
  assert (LUNCH_START = 720 /\ LUNCH_END = 840 /\ COFFEE_START = 940
          /\ COFFEE_END = 960) as (E1 & E2 & E3 & E4) by (now cbv).
  assert (count_entry lunch_break [lunch_break] = 1%nat
          /\ count_entry lunch_break [coffee_break] = 0%nat
          /\ count_entry coffee_break [lunch_break] = 0%nat
          /\ count_entry coffee_break [coffee_break] = 1%nat
          /\ forall b, count_entry b [] = 0%nat)
    as (K1 & K2 & K3 & K4 & K5) by (now cbv).
  destruct (Z.leb_spec current_time LUNCH_START) as [A1|A1];
    destruct (Z.gtb_spec (current_time + slot) LUNCH_START) as [A2|A2];
    cbn [andb fst snd].
  all: match goal with
       | |- context [?c <=? COFFEE_START] =>
         destruct (Z.leb_spec c COFFEE_START) as [A3|A3]
       end.
  all: match goal with
       | |- context [?c >? COFFEE_START] =>
         destruct (Z.gtb_spec c COFFEE_START) as [A4|A4]
       end.
  all: cbn [andb fst snd].
  all: rewrite !length_app, !count_entry_app, ?K1, ?K2, ?K3, ?K4, ?K5.
  all: rewrite !count_entry_other_start
         by (cbn [Start talk_entry lunch_break coffee_break]; lia).
  all: cbn [List.length]; lia.
Qed.

Section PositiveCounts.

Variable df : DataFrame.
Hypothesis positive : positive_durations df.

Lemma run_loop_end_bounds (order : list Z) :
  forall st st',
    run_loop df order st = Ok st' ->
    snd st + total_slots df order <= snd st'
    /\ snd st' <= Z.max (snd st) COFFEE_END + total_slots df order.
Proof.
  induction order as [|idx rest IH]; intros st st' H.
  - injection H as <-. cbn [total_slots]. lia.
  - apply run_loop_cons in H as (row & I & _ & H).
    cbn [total_slots]. rewrite I.
    pose proof (positive_slot df positive idx row I) as Hs.
    pose proof (iteration_end_bounds row idx st ltac:(lia)) as [B1 B2].
    apply IH in H as [H1 H2]. lia.
Qed.

Lemma run_loop_length (order : list Z) :
  forall st st',
    run_loop df order st = Ok st' ->
    (List.length (fst st') + count_entry lunch_break (fst st)
       + count_entry coffee_break (fst st)
     = List.length (fst st) + List.length order
       + count_entry lunch_break (fst st')
       + count_entry coffee_break (fst st'))%nat.
Proof.
  induction order as [|idx rest IH]; intros st st' H.
  - injection H as <-. cbn [List.length]. lia.
  - apply run_loop_cons in H as (row & I & _ & H).
    pose proof (positive_slot df positive idx row I) as Hs.
    pose proof (iteration_length row idx st Hs) as L. cbv zeta in L.
    apply IH in H. cbn [List.length]. lia.
Qed.

End PositiveCounts.

(** X4. With positive durations the schedule has one entry for each
    element of the order, repeated elements included, plus the breaks it
    holds: at least as many entries as the order and at most two more. *)
Theorem schedule_length :
  forall df order schedule,
    positive_durations df ->
    build_schedule df order = Ok schedule ->
    List.length schedule
    = (List.length order + count_entry lunch_break schedule
       + count_entry coffee_break schedule)%nat
    /\ (List.length order <= List.length schedule
        <= List.length order + 2)%nat.
Proof.
  intros df order schedule P H. apply build_schedule_ok in H as (c & H).
  pose proof (run_loop_length df P order _ _ H) as L.
  apply (run_loop_breaks_once df P order) in H;
    [|repeat split; intros; cbn; lia].
  destruct H as (B1 & _ & B2 & _). cbn [fst List.length] in *.
  change (count_entry lunch_break []) with 0%nat in L.
  change (count_entry coffee_break []) with 0%nat in L.
  lia.
Qed.

Lemma schedule_length_witness :
  List.length example_day
  = (List.length example_order + count_entry lunch_break example_day
     + count_entry coffee_break example_day)%nat
  /\ (List.length example_order <= List.length example_day
      <= List.length example_order + 2)%nat.
Proof.
  apply (schedule_length example_table example_order example_day).
  - positive_table.
  - reflexivity.
Defined.

(** X5. With positive durations the last entry of the schedule ends no
    earlier than [START_TIME] plus the slots of all the talks of the
    order, and no later than [COFFEE_END] plus those slots. *)
Theorem day_end_bounds :
  forall df order schedule firsts last,
    positive_durations df ->
    build_schedule df order = Ok schedule ->
    schedule = firsts ++ [last] ->
    START_TIME + total_slots df order <= End_ last
    /\ End_ last <= COFFEE_END + total_slots df order.
Proof.
  intros df order schedule firsts last P H E.
  apply build_schedule_ok in H as (c & H).
  pose proof (run_loop_end_bounds df P order _ _ H) as [B1 B2].
  apply (run_loop_back_to_back df START_TIME order) in H as [_ L];
    [|now split].
  cbn [fst snd] in *. rewrite E, last_end_app in L. cbn [last_end] in L.
  replace (Z.max START_TIME COFFEE_END) with COFFEE_END in B2
    by reflexivity.
  lia.
Qed.

Lemma day_end_bounds_witness :
  START_TIME + total_slots [row_of 156] [0]
  <= End_ (talk_entry (row_of 156) 0 960 1126)
  /\ End_ (talk_entry (row_of 156) 0 960 1126)
     <= COFFEE_END + total_slots [row_of 156] [0].
Proof.
  apply (day_end_bounds [row_of 156] [0]
           [lunch_break; coffee_break; talk_entry (row_of 156) 0 960 1126]
           [lunch_break; coffee_break]).
  - positive_table.
  - reflexivity.
  - reflexivity.
Defined.

(** ** Orders put end to end *)

Lemma run_loop_app (df : DataFrame) (order1 order2 : list Z) :
  forall st,
    run_loop df (order1 ++ order2) st
    = (st1 <- run_loop df order1 st ;; run_loop df order2 st1).
Proof.
  induction order1 as [|idx rest IH]; intros st; [reflexivity|].
  cbn [List.app run_loop]. destruct (loop_body df st idx) as [st1|e];
    cbn [bind]; [apply IH|reflexivity].
Qed.

(** X6. The loop only ever appends, and stops at the first exception.
    Scheduling [order1 ++ order2] is scheduling [order1] and carrying on
    with [order2] from the state reached: when [order1] fails the longer
    order fails with the same exception, and the schedule of the longer
    order begins with the schedule of [order1]. *)
Theorem longer_order_extends_the_schedule :
  forall df order1 order2,
    (forall e,
       build_schedule df order1 = Raise e ->
       build_schedule df (order1 ++ order2) = Raise e)
    /\
    (forall schedule,
       build_schedule df (order1 ++ order2) = Ok schedule ->
       exists schedule1 more,
         build_schedule df order1 = Ok schedule1
         /\ schedule = schedule1 ++ more)
    /\
    (forall st1,
       run_loop df order1 ([], START_TIME) = Ok st1 ->
       build_schedule df (order1 ++ order2)
       = (st <- run_loop df order2 st1 ;; Ok (fst st))).
Proof.
  intros df order1 order2. unfold build_schedule. rewrite run_loop_app.
  destruct (run_loop df order1 ([], START_TIME)) as [st1|e1] eqn:R1;
    cbn [bind]; repeat split.
  - discriminate.
  - intros schedule H.
    destruct (run_loop df order2 st1) as [st2|e2] eqn:R2; [|discriminate].
    cbn [bind] in H. injection H as <-.
    apply run_loop_extends in R2 as (more & E). eauto.
  - now intros st [= <-].
  - now intros e [= <-].
  - discriminate.
  - discriminate.
Qed.

Lemma longer_order_extends_the_schedule_witness :
  build_schedule [row_of 50] ([0; 5] ++ [0]) = Raise IndexError
  /\
  (exists schedule1 more,
     build_schedule example_table [0; 0; 1] = Ok schedule1
     /\ example_day = schedule1 ++ more)
  /\
  build_schedule example_table ([0; 0; 1] ++ [1; 2; 0; 1; 1; 2])
  = (st <- run_loop example_table [1; 2; 0; 1; 1; 2]
             ([talk_entry (row_of 50) 0 565 625;
               talk_entry (row_of 50) 0 625 685;
               lunch_break; coffee_break;
               talk_entry (row_of 100) 1 960 1070], 1070) ;;
     Ok (fst st)).
Proof.
  split; [|split].
  - exact (proj1 (longer_order_extends_the_schedule [row_of 50] [0; 5] [0])
             IndexError eq_refl).
  - exact (proj1 (proj2 (longer_order_extends_the_schedule example_table
                           [0; 0; 1] [1; 2; 0; 1; 1; 2]))
             example_day eq_refl).
  - exact (proj2 (proj2 (longer_order_extends_the_schedule example_table
                           [0; 0; 1] [1; 2; 0; 1; 1; 2]))
             _ eq_refl).
Defined.

(** ** How the scheduler fails *)





(** X8. On an empty table every position is out of range: a non-empty
    order fails with [IndexError] and the run stops before anything is
    printed, asked or written. *)
Theorem empty_table_fails :
  forall idx rest w,
    build_schedule [] (idx :: rest) = Raise IndexError
    /\ main [] (idx :: rest) w = (w, Raise IndexError).
Proof.
  intros idx rest w.
  assert (build_schedule [] (idx :: rest) = Raise IndexError) as B.
  { unfold build_schedule. cbn [run_loop]. rewrite loop_body_eq.
    rewrite iloc_out_of_range by (cbn; lia). reflexivity. }
  split; [exact B|]. unfold main. now rewrite B.
Qed.

(** ** The ID column and the ID of an entry *)

Lemma nth_error_numbered {A : Type} (l : list A) :
  forall start i,
    nth_error (combine (map Z.of_nat (seq start (List.length l))) l) i
    = option_map (fun x => (Z.of_nat (start + i), x)) (nth_error l i).
Proof.
  induction l as [|x l IH]; intros start i.
  - now destruct i.
  - destruct i as [|i]; cbn [List.length seq map combine nth_error option_map].
    + now rewrite Nat.add_0_r.
    + rewrite IH. now rewrite Nat.add_succ_comm.
Qed.

Lemma insert_ID_length (df : DataFrame) :
  List.length (insert_ID df) = List.length df.
Proof.
  unfold insert_ID.
  rewrite length_combine, length_map, length_seq. apply Nat.min_id.
Qed.

(** X9. The ID column added on loading holds the position of each row,
    counted from 0.  The row the loop reads at [idx] is the row with ID
    [idx] when [idx] is not negative, and the row with ID [idx + n] when
    it is negative, while the entry of the schedule keeps [idx] itself as
    its ID. *)
Theorem id_column_is_the_row_position :
  forall df idx,
    iloc_at (insert_ID df) idx
    = match iloc df idx with
      | Ok row =>
        Ok (if idx <? 0 then idx + Z.of_nat (List.length df) else idx, row)
      | Raise e => Raise e
      end
    /\
    (forall id row,
       iloc_at (insert_ID df) idx = Ok (id, row) ->
       nth_error df (Z.to_nat id) = Some row
       /\ 0 <= id < Z.of_nat (List.length df)
       /\ (forall current_time end_time,
             ID (talk_entry row idx current_time end_time) = id
             <-> 0 <= idx)).
Proof.
  intros df idx.
  assert (iloc_at (insert_ID df) idx
          = match iloc df idx with
            | Ok row =>
              Ok (if idx <? 0 then idx + Z.of_nat (List.length df) else idx,
                  row)
            | Raise e => Raise e
            end) as E.
  { unfold iloc_at, iloc. rewrite insert_ID_length.
    set (n := Z.of_nat (List.length df)).
    set (i := if idx <? 0 then idx + n else idx).
    destruct (Z.leb_spec 0 i) as [H0|H0]; [|reflexivity].
    destruct (Z.ltb_spec i n) as [H1|H1]; [|reflexivity].
    cbn [andb]. unfold insert_ID. rewrite nth_error_numbered.
    destruct (nth_error df (Z.to_nat i)) as [row|]; [|reflexivity].
    cbn [option_map]. rewrite Nat.add_0_l, Z2Nat.id by exact H0.
    reflexivity. }
  split; [exact E|].
  intros id row H. rewrite E in H.
  destruct (iloc df idx) as [row'|e] eqn:I; [|discriminate].
  injection H as <- <-.
  unfold iloc in I.
  set (n := Z.of_nat (List.length df)) in *.
  set (i := if idx <? 0 then idx + n else idx) in *.
  destruct (Z.leb_spec 0 i) as [H0|H0]; [|discriminate].
  destruct (Z.ltb_spec i n) as [H1|H1]; [|discriminate].
  cbn [andb] in I.
  destruct (nth_error df (Z.to_nat i)) as [r|] eqn:N; [|discriminate].
  injection I as <-.
  split; [reflexivity|]. split; [lia|].
  intros current_time end_time. cbn [ID talk_entry]. subst i.
  destruct (Z.ltb_spec idx 0); lia.
Qed.

Lemma id_column_is_the_row_position_witness :
  nth_error [row_of 50; row_of 30] (Z.to_nat 1) = Some (row_of 30)
  /\ 0 <= 1 < Z.of_nat (List.length [row_of 50; row_of 30])
  /\ (forall current_time end_time,
        ID (talk_entry (row_of 30) (-1) current_time end_time) = 1
        <-> 0 <= -1).
Proof.
  exact (proj2 (id_column_is_the_row_position [row_of 50; row_of 30] (-1))
           1 (row_of 30) eq_refl).
Defined.

(** ** Breaks as the scheduler makes them and as the output shows them *)

Lemma chunk_members (df : DataFrame) (order : list Z) (chunks : list chunk) :
  Forall2 (chunk_of df) order chunks ->
  forall e,
    In e (flat_map chunk_entries chunks) ->
    e = lunch_break \/ e = coffee_break
    \/ exists idx row,
         In idx order /\ iloc df idx = Ok row
         /\ e = talk_entry row idx (Start e) (End_ e).
Proof.
  induction 1 as [|idx c order chunks (Hb & row & I & T) F IH];
    intros e Hin; [destruct Hin|].
  cbn [flat_map] in Hin. apply in_app_or in Hin as [Hin|Hin].
  - unfold chunk_entries in Hin. apply in_app_or in Hin as [Hin|Hin].
    + apply Hb in Hin as [->| ->]; auto.
    + destruct Hin as [<-|[]]. right. right. exists idx, row.
      split; [now left|]. split; [exact I|].
      rewrite T. reflexivity.
  - apply IH in Hin as [->|[->|(j & r & Hj & Ij & Ej)]]; auto.
    right. right. exists j, r. split; [now right|]. auto.
Qed.

(** X10. When no row's name (first name, space, last name) contains
    "Lunch" or "Coffee", the entries the renderer and the summary show as
    breaks are exactly the breaks the scheduler inserted: every other
    entry of the schedule is a talk of the order, shown as a talk row. *)
Theorem shown_breaks_are_the_inserted_breaks :
  forall df order schedule,
    (forall row,
       In row df ->
       contains "Lunch" (FIRSTNAME row +++ " " +++ LASTNAME row) = false
       /\ contains "Coffee" (FIRSTNAME row +++ " " +++ LASTNAME row) = false) ->
    build_schedule df order = Ok schedule ->
    Forall
      (fun e =>
         (printed_as_break e = true <-> e = lunch_break \/ e = coffee_break)
         /\ (printed_as_break e = false ->
             exists idx row,
               In idx order /\ iloc df idx = Ok row
               /\ e = talk_entry row idx (Start e) (End_ e)))
      schedule.
Proof.
  intros df order schedule Names H.
  apply build_schedule_ok in H as (c & H).
  apply run_loop_chunks in H as (chunks & E & F). cbn [fst List.app] in E.
  subst schedule. apply Forall_forall. intros e Hin.
  apply (chunk_members df order chunks F) in Hin
    as [->|[->|(idx & row & Hidx & I & T)]].
  - split; [split; auto|discriminate].
  - split; [split; auto|discriminate].
  - assert (printed_as_break e = false) as N.
    { rewrite T. unfold printed_as_break. cbn [Speaker talk_entry].
      apply iloc_In, Names in I as [-> ->]. reflexivity. }
    split; [|eauto]. split.
    + congruence.
    + intros [->| ->]; discriminate.
Qed.

Lemma shown_breaks_are_the_inserted_breaks_witness :
  Forall
    (fun e =>
       (printed_as_break e = true <-> e = lunch_break \/ e = coffee_break)
       /\ (printed_as_break e = false ->
           exists idx row,
             In idx example_order /\ iloc example_table idx = Ok row
             /\ e = talk_entry row idx (Start e) (End_ e)))
    example_day.
Proof.
  apply (shown_breaks_are_the_inserted_breaks example_table example_order
           example_day).
  - intros row H. simpl in H.
    repeat (destruct H as [<-|H]; [split; reflexivity|]). destruct H.
  - reflexivity.
Defined.

(** * Further properties of the renderer and of the summary *)

(** ** Tables open and close in turn *)

Lemma render_entry_balanced (tw sw : string) (s : entry)
    (rest : list string) :
  tables_balanced true (render_entry tw sw s ++ rest)
  = tables_balanced true rest.
Proof.
  unfold render_entry.
  destruct (contains "Lunch" (Speaker s)); [reflexivity|].
  destruct (contains "Coffee" (Speaker s)); [reflexivity|].
  destruct (Online s =? 1); reflexivity.
Qed.

Lemma render_entry_opens (tw sw : string) (s : entry) :
  List.length (filter opens_table (render_entry tw sw s))
  = if contains "Lunch" (Speaker s) then 1%nat else 0%nat.
Proof.
  unfold render_entry.
  destruct (contains "Lunch" (Speaker s)); [reflexivity|].
  destruct (contains "Coffee" (Speaker s)); [reflexivity|].
  destruct (Online s =? 1); reflexivity.
Qed.

(** X11. In the list of lines the renderer builds for any schedule, the
    tables are well nested: [\begin{tabularx}] and [\end{tabularx}] lines
    come in turn, every row and rule stands inside a table, and the block
    ends with the table closed.  There is one table, plus one for each
    entry whose speaker contains "Lunch". *)
Theorem rendered_tables_are_balanced :
  forall tw sw schedule,
    tables_balanced false (schedule_block tw sw schedule) = true
    /\ List.length (filter opens_table (schedule_block tw sw schedule))
       = S (List.length
              (filter (fun s => contains "Lunch" (Speaker s)) schedule)).
Proof.
  intros tw sw schedule. unfold schedule_block. split.
  - change (tables_balanced true
              (flat_map (render_entry tw sw) schedule
               ++ ["\bottomrule" +++ LF +++ "\end{tabularx}" +++ LF
                   +++ "\vspace{1mm}" +++ LF +++ "\end{tcolorbox}"])
            = true).
    induction schedule as [|s rest IH]; [reflexivity|].
    cbn [flat_map]. rewrite <- app_assoc, render_entry_balanced. exact IH.
  - rewrite !filter_app, !length_app.
    change (1 + (List.length
                   (filter opens_table
                      (flat_map (render_entry tw sw) schedule)) + 0)
            = S (List.length
                   (filter (fun s => contains "Lunch" (Speaker s))
                      schedule)))%nat.
    rewrite Nat.add_0_r. cbn [Nat.add]. f_equal.
    induction schedule as [|s rest IH]; [reflexivity|].
    cbn [flat_map filter]. rewrite filter_app, length_app, IH.
    rewrite render_entry_opens.
    now destruct (contains "Lunch" (Speaker s)).
Qed.

(** ** Printed times *)

(** X12. The times are printed by hour and minute only, so two times are
    printed alike exactly when they are the same time of day: the day of a
    time never shows, and within one day different times are printed
    differently. *)
Theorem printed_time_is_the_time_of_day :
  forall d1 d2,
    (strftime_HM d1 = strftime_HM d2 <-> time_of_day d1 = time_of_day d2)
    /\ (strftime_H d1 = strftime_H d2 /\ strftime_M d1 = strftime_M d2
        <-> time_of_day d1 = time_of_day d2).
Proof.
  intros d1 d2.
  pose proof (time_of_day_hour_minute d1) as T1.
  pose proof (time_of_day_hour_minute d2) as T2.
  pose proof (hour_bounds d1). pose proof (hour_bounds d2).
  pose proof (minute_bounds d1). pose proof (minute_bounds d2).
  assert (time_of_day d1 = time_of_day d2 ->
          Datetime.hour d1 = Datetime.hour d2
          /\ Datetime.minute d1 = Datetime.minute d2) as Back by lia.
  assert (forall a b, 0 <= a < 100 -> 0 <= b < 100 ->
            two_digits a = two_digits b -> a = b) as Inj.
  { intros a b Ha Hb E. unfold two_digits in E.
    destruct (tens_units a Ha) as [A1 A0].
    destruct (tens_units b Hb) as [B1 B0].
    injection E as E1 E0.
    apply (f_equal parse_digit) in E1, E0.
    rewrite !parse_digit_digit in E1, E0 by assumption.
    injection E1 as E1. injection E0 as E0.
    rewrite <- (two_digits_value a), <- (two_digits_value b). lia. }
  split; split.
  - intros E.
    pose proof (parse_HM_strftime d1 "") as P1.
    pose proof (parse_HM_strftime d2 "") as P2.
    rewrite E in P1. congruence.
  - intros E. apply Back in E as [Eh Em].
    unfold strftime_HM, strftime_H, strftime_M. now rewrite Eh, Em.
  - intros [Eh Em]. unfold strftime_H, strftime_M in *.
    apply Inj in Eh, Em; lia.
  - intros E. apply Back in E as [Eh Em].
    unfold strftime_H, strftime_M. now rewrite Eh, Em.
Qed.

Lemma printed_time_is_the_time_of_day_witness :
  strftime_HM (Datetime.strptime_HM 9 25)
  = strftime_HM (Datetime.strptime_HM 9 25 + 1440)
  /\ time_of_day 565 = time_of_day 2005.
Proof.
  split.
  - exact (proj2 (proj1 (printed_time_is_the_time_of_day
                           (Datetime.strptime_HM 9 25)
                           (Datetime.strptime_HM 9 25 + 1440)))
             eq_refl).
  - exact (proj1 (proj1 (printed_time_is_the_time_of_day 565 2005))
             eq_refl).
Defined.

(** ** Columns of the summary *)

Lemma code_points_head (c : ascii) (s : string) :
  exists chunk more, code_points (String c s) = String c chunk :: more.
Proof.
  cbn [code_points]. destruct (code_points s) as [|[|d chunk] more]; eauto.
  destruct (is_continuation d); eauto.
Qed.

Lemma code_points_nil (s : string) : code_points s = [] -> s = "".
Proof.
  destruct s as [|c s]; [reflexivity|].
  destruct (code_points_head c s) as (chunk & more & E). now rewrite E.
Qed.

Lemma code_points_app (a b : string) :
  clean_start b = true ->
  code_points (a +++ b) = code_points a ++ code_points b.
Proof.
  intros Hb. induction a as [|c a IH]; [reflexivity|].
  cbn [append code_points]. rewrite IH.
  destruct (code_points a) as [|ch more] eqn:E.
  - cbn [List.app]. destruct b as [|d b]; [reflexivity|].
    destruct (code_points_head d b) as (chunk & more & ->).
    cbn [clean_start] in Hb. apply negb_true_iff in Hb. now rewrite Hb.
  - cbn [List.app]. destruct ch as [|d chunk]; [reflexivity|].
    now destruct (is_continuation d).
Qed.

Lemma len_app (a b : string) :
  clean_start b = true -> len (a +++ b) = (len a + len b)%nat.
Proof.
  intros Hb. unfold len. now rewrite code_points_app, length_app.
Qed.

Lemma ascii_not_continuation (c : ascii) :
  (N_of_ascii c <? 128)%N = true -> is_continuation c = false.
Proof.
  intros H. apply N.ltb_lt in H. unfold is_continuation.
  destruct (N.leb_spec 128 (N_of_ascii c)); [lia|reflexivity].
Qed.

(** One-byte characters count one each, and a text that starts with one
    starts cleanly. *)
Lemma len_ascii_app (a b : string) :
  all_ascii a = true -> clean_start b = true ->
  len (a +++ b) = (String.length a + len b)%nat
  /\ clean_start (a +++ b) = true.
Proof.
  intros Ha Hb. induction a as [|c a IH]; [now split|].
  cbn [all_ascii] in Ha. apply andb_true_iff in Ha as [Hc Ha].
  destruct (IH Ha) as [L C].
  cbn [append String.length clean_start].
  rewrite (ascii_not_continuation c Hc). split; [|reflexivity].
  change (String c (a +++ b)) with (String c "" +++ (a +++ b)).
  rewrite len_app by exact C. rewrite L. reflexivity.
Qed.

Lemma spaces_ascii (n : nat) :
  all_ascii (spaces n) = true /\ String.length (spaces n) = n.
Proof. induction n as [|n [A L]]; cbn; auto. Qed.

Lemma string_of_uint_ascii (d : Decimal.uint) :
  all_ascii (NilEmpty.string_of_uint d) = true.
Proof. induction d; cbn [NilEmpty.string_of_uint all_ascii]; auto. Qed.

Lemma str_of_int_ascii (n : Z) : all_ascii (str_of_int n) = true.
Proof.
  unfold str_of_int. destruct (Z.to_int n) as [d|d];
    cbn [NilEmpty.string_of_int all_ascii];
    now rewrite string_of_uint_ascii.
Qed.

Lemma all_ascii_app (a b : string) :
  all_ascii (a +++ b) = all_ascii a && all_ascii b.
Proof.
  induction a as [|c a IH]; [reflexivity|].
  cbn [append all_ascii]. now rewrite IH, andb_assoc.
Qed.

Lemma length_append (a b : string) :
  String.length (a +++ b) = (String.length a + String.length b)%nat.
Proof. induction a as [|c a IH]; cbn; auto. Qed.

Lemma digit_ascii (a : Z) :
  0 <= a <= 9 -> (N_of_ascii (digit a) <? 128)%N = true.
Proof. intros H. rewrite (digit_code a H). apply N.ltb_lt. lia. Qed.

Lemma strftime_HM_ascii (d : Datetime.t) :
  all_ascii (strftime_HM d) = true /\ String.length (strftime_HM d) = 5%nat.
Proof.
  unfold strftime_HM, strftime_H, strftime_M, two_digits.
  destruct (tens_units (Datetime.hour d)) as [H1 H0];
    [pose proof (hour_bounds d); lia|].
  destruct (tens_units (Datetime.minute d)) as [M1 M0];
    [pose proof (minute_bounds d); lia|].
  cbn [append all_ascii String.length].
  rewrite !digit_ascii by assumption. now split.
Qed.

Lemma small_int_width (n : Z) :
  -99 <= n <= 999 -> (String.length (str_of_int n) <= 3)%nat.
Proof.
  intros H.
  assert (forallb
            (fun k => (String.length (str_of_int (Z.of_nat k - 99)) <=? 3)%nat)
            (seq 0 1099) = true) as A by (vm_compute; reflexivity).
  rewrite forallb_forall in A.
  specialize (A (Z.to_nat (n + 99))).
  rewrite Z2Nat.id in A by lia.
  replace (n + 99 - 99) with n in A by lia.
  apply Nat.leb_le, A, in_seq. lia.
Qed.

Lemma append_empty_r (a : string) : a +++ "" = a.
Proof. induction a as [|c a IH]; cbn; [reflexivity|now rewrite IH]. Qed.

Lemma len_ascii (a : string) :
  all_ascii a = true -> len a = String.length a.
Proof.
  intros H. destruct (len_ascii_app a "" H eq_refl) as [L _].
  rewrite append_empty_r in L. rewrite L. apply Nat.add_0_r.
Qed.

Lemma clean_start_app (a b : string) :
  clean_start a = true -> clean_start b = true ->
  clean_start (a +++ b) = true.
Proof. now destruct a. Qed.

Lemma format_3d_ascii (n : Z) :
  all_ascii (format_3d n) = true
  /\ String.length (format_3d n)
     = Nat.max 3 (String.length (str_of_int n)).
Proof.
  unfold format_3d. rewrite (len_ascii _ (str_of_int_ascii n)).
  destruct (spaces_ascii (3 - String.length (str_of_int n))) as [A L].
  rewrite all_ascii_app, length_append, A, L, str_of_int_ascii.
  split; [reflexivity|lia].
Qed.

(** X13. The summary pads by characters, not bytes: the speaker field is
    twenty characters long or as long as the speaker if longer, the ID
    field three or as long as the number.  So for a talk line whose
    speaker has at most twenty characters and whose ID lies between -99
    and 999, the title begins after exactly 37 characters. *)
Theorem summary_columns_line_up :
  (forall speaker, len (format_20s speaker) = Nat.max 20 (len speaker))
  /\ (forall n, len (format_3d n) = Nat.max 3 (len (str_of_int n)))
  /\ (forall s,
        printed_as_break s = false ->
        clean_start (Speaker s) = true ->
        (len (Speaker s) <= 20)%nat ->
        -99 <= ID s <= 999 ->
        exists lead,
          summary_line s = lead +++ Title s /\ len lead = 37%nat).
Proof.
  split; [|split].
  - intros speaker. unfold format_20s.
    destruct (spaces_ascii (20 - len speaker)) as [A L].
    destruct (len_ascii_app (spaces (20 - len speaker)) "" A eq_refl)
      as [_ C].
    rewrite append_empty_r in C.
    rewrite len_app by exact C. rewrite (len_ascii _ A), L. lia.
  - intros n. destruct (format_3d_ascii n) as [A L].
    rewrite (len_ascii _ A), L, (len_ascii _ (str_of_int_ascii n)).
    reflexivity.
  - intros s B Cs Ls Hid.
    unfold printed_as_break in B. apply orb_false_iff in B as [BL BC].
    unfold summary_line. rewrite BL, BC.
    exists (strftime_HM (Start s) +++ "–" +++ strftime_HM (End_ s) +++ " "
            +++ format_3d (ID s) +++ " " +++ format_20s (Speaker s) +++ " ").
    split; [now rewrite !append_assoc|].
    (* the speaker field and the space after it *)
    assert (len (format_20s (Speaker s) +++ " ") = 21%nat
            /\ clean_start (format_20s (Speaker s) +++ " ") = true)
      as [L1 C1].
    { unfold format_20s. rewrite append_assoc.
      destruct (spaces_ascii (20 - len (Speaker s))) as [A L].
      destruct (len_ascii_app (spaces (20 - len (Speaker s))) " " A eq_refl)
        as [L' C'].
      split.
      - rewrite len_app by exact C'. rewrite L', L.
        change (len " ") with 1%nat. lia.
      - now apply clean_start_app. }
    assert (len (" " +++ format_20s (Speaker s) +++ " ") = 22%nat
            /\ clean_start (" " +++ format_20s (Speaker s) +++ " ") = true)
      as [L2 C2].
    { destruct (len_ascii_app " " _ eq_refl C1) as [L C].
      split; [rewrite L, L1; reflexivity|exact C]. }
    (* the ID field *)
    destruct (format_3d_ascii (ID s)) as [A3 W3].
    pose proof (small_int_width (ID s) Hid) as W.
    destruct (len_ascii_app (format_3d (ID s)) _ A3 C2) as [L3 C3].
    rewrite W3, L2 in L3.
    destruct (len_ascii_app " " _ eq_refl C3) as [L4 C4].
    rewrite L3 in L4.
    (* the two times and the dash *)
    destruct (strftime_HM_ascii (End_ s)) as [Ae We].
    destruct (len_ascii_app (strftime_HM (End_ s)) _ Ae C4) as [L5 C5].
    rewrite We, L4 in L5.
    assert (clean_start ("–" +++ strftime_HM (End_ s) +++ " "
                         +++ format_3d (ID s) +++ " "
                         +++ format_20s (Speaker s) +++ " ") = true)
      as C6 by reflexivity.
    pose proof (len_app "–" _ C5) as L6. rewrite L5 in L6.
    destruct (strftime_HM_ascii (Start s)) as [As Ws].
    destruct (len_ascii_app (strftime_HM (Start s)) _ As C6) as [L7 _].
    rewrite L7, Ws, L6.
    change (len "–") with 1%nat. cbn [String.length]. lia.
Qed.

Lemma summary_columns_line_up_witness :
  exists lead,
    summary_line (talk_entry (mkTalk "Zoé" "Müller" "Ondes" 20 0) 4 565 595)
    = lead
      +++ Title (talk_entry (mkTalk "Zoé" "Müller" "Ondes" 20 0) 4 565 595)
    /\ len lead = 37%nat.
Proof.
  apply (proj2 (proj2 summary_columns_line_up)
           (talk_entry (mkTalk "Zoé" "Müller" "Ondes" 20 0) 4 565 595)).
  - reflexivity.
  - reflexivity.
  - vm_compute. repeat constructor.
  - cbn. lia.
Defined.

(** * Further properties of the driver *)

(** ** What a run shows and writes *)

Lemma concat_cons (x : string) (l : list string) :
  String.concat "" (x :: l) = x +++ String.concat "" l.
Proof.
  destruct l as [|y l]; cbn [String.concat]; [|reflexivity].
  now rewrite append_empty_r.
Qed.

Lemma fold_print_stdout (schedule : list entry) :
  forall w,
    stdout (fold_left (fun w s => print (summary_line s) w) schedule w)
    = stdout w
      +++ String.concat "" (map (fun s => summary_line s +++ LF) schedule).
Proof.
  induction schedule as [|s rest IH]; intros w.
  - cbn. now rewrite append_empty_r.
  - cbn [fold_left map]. rewrite IH, concat_cons. cbn [print stdout].
    now rewrite !append_assoc.
Qed.

Lemma print_summary_stdout (schedule : list entry) (w : World) :
  stdout (print_summary schedule w) = stdout w +++ summary_text schedule.
Proof.
  unfold print_summary, summary_text. rewrite fold_print_stdout.
  cbn [print stdout]. now rewrite !append_assoc.
Qed.

(** The three ways the driver goes on from a schedule. *)
Lemma main_after_schedule (df : DataFrame) (order : list Z)
    (schedule : list entry) (w : World) :
  build_schedule df order = Ok schedule ->
  let shown :=
    {| files := files w; writable := writable w;
       stdout := (stdout w +++ summary_text schedule) +++ question;
       stdin := tl (stdin w) |} in
  main df order w
  = match stdin w with
    | [] => (shown, Raise EOFError)
    | line :: _ =>
      if String.eqb (lower (strip line)) "yes" then
        if writable w "jdd_schedule.tex" then
          ({| files := fun p => if String.eqb p "jdd_schedule.tex"
                                then Some (document schedule)
                                else files w p;
              writable := writable w;
              stdout := ((((stdout w +++ summary_text schedule) +++ question)
                          +++ (LF +++ LF +++ "===== LaTeX Schedule Block ====="
                               +++ LF) +++ LF)
                         +++ document schedule +++ LF)
                        +++ (LF +++ "================================")
                        +++ LF;
              stdin := tl (stdin w) |}, Ok tt)
        else (shown, Raise OSError)
      else (print (LF +++ "Exit.") shown, Ok tt)
    end.
Proof.
  intros B shown. unfold main. rewrite B.
  destruct (print_summary_world schedule w) as (F & W & S).
  pose proof (print_summary_stdout schedule w) as O.
  unfold input. rewrite S.
  destruct (stdin w) as [|line rest] eqn:I.
  - subst shown. rewrite F, W, O. reflexivity.
  - destruct (String.eqb (lower (strip line)) "yes").
    + unfold generate_jdd_latex, write_file. cbn [writable]. rewrite W.
      destruct (writable w "jdd_schedule.tex").
      * cbn [print files writable stdout stdin]. rewrite F, O.
        reflexivity.
      * subst shown. rewrite F, O. reflexivity.
    + subst shown. rewrite F, W, O. reflexivity.
Qed.

(** X14. Whatever the table, the order and the answer, a run changes no
    file other than [jdd_schedule.tex], only adds to what the console
    shows, and reads at most one line of input. *)
Theorem run_footprint :
  forall df order w,
    (forall path,
       path <> "jdd_schedule.tex" ->
       files (fst (main df order w)) path = files w path)
    /\ (exists out, stdout (fst (main df order w)) = stdout w +++ out)
    /\ (stdin (fst (main df order w)) = stdin w
        \/ stdin (fst (main df order w)) = tl (stdin w)).
Proof.
  intros df order w.
  destruct (build_schedule df order) as [schedule|e] eqn:B.
  - rewrite (main_after_schedule df order schedule w B).
    destruct (stdin w) as [|line rest];
      [|destruct (String.eqb (lower (strip line)) "yes");
        [destruct (writable w "jdd_schedule.tex")|]];
      cbn [fst print files stdout stdin tl].
    all: split; [|split; [|now right]].
    all: try (intros path N; apply String.eqb_neq in N; now rewrite N).
    all: try reflexivity.
    all: eexists; rewrite !append_assoc; reflexivity.
  - unfold main. rewrite B. cbn [fst].
    split; [reflexivity|]. split; [|now left].
    exists "". now rewrite append_empty_r.
Qed.

Lemma run_footprint_witness :
  files (fst (main [row_of 50] [0] (console ["yes"]))) "notes.txt"
  = files (console ["yes"]) "notes.txt".
Proof.
  apply (proj1 (run_footprint [row_of 50] [0] (console ["yes"]))).
  discriminate.
Defined.

(** X15. When the schedule is built, the stripped and lowered answer is
    "yes" and the file can be written, the run ends normally;
    [jdd_schedule.tex] then holds the document of the schedule with the
    column widths 12mm and 48mm, and the console shows the summary, the
    question, and the same document between a banner and a rule. *)
Theorem accepted_run_writes_the_document :
  forall df order schedule w line rest,
    build_schedule df order = Ok schedule ->
    stdin w = line :: rest ->
    lower (strip line) = "yes" ->
    writable w "jdd_schedule.tex" = true ->
    snd (main df order w) = Ok tt
    /\ files (fst (main df order w)) "jdd_schedule.tex"
       = Some (document schedule)
    /\ stdout (fst (main df order w))
       = stdout w +++ summary_text schedule +++ question
         +++ rendering_report schedule
    /\ stdin (fst (main df order w)) = rest
    /\ snd (generate_jdd_latex schedule "12mm" "48mm" None w)
       = Ok (document schedule).
Proof.
  intros df order schedule w line rest B I Y W.
  rewrite (main_after_schedule df order schedule w B), I.
  apply String.eqb_eq in Y. rewrite Y, W.
  cbn [fst snd files stdout stdin tl]. repeat split.
  unfold rendering_report. now rewrite !append_assoc.
Qed.

Lemma accepted_run_writes_the_document_witness :
  snd (main [row_of 50] [0] (console [" Yes "; "more"])) = Ok tt
  /\ files (fst (main [row_of 50] [0] (console [" Yes "; "more"])))
       "jdd_schedule.tex"
     = Some (document [talk_entry (row_of 50) 0 565 625])
  /\ stdout (fst (main [row_of 50] [0] (console [" Yes "; "more"])))
     = stdout (console [" Yes "; "more"])
       +++ summary_text [talk_entry (row_of 50) 0 565 625] +++ question
       +++ rendering_report [talk_entry (row_of 50) 0 565 625]
  /\ stdin (fst (main [row_of 50] [0] (console [" Yes "; "more"])))
     = ["more"]
  /\ snd (generate_jdd_latex [talk_entry (row_of 50) 0 565 625]
            "12mm" "48mm" None (console [" Yes "; "more"]))
     = Ok (document [talk_entry (row_of 50) 0 565 625]).
Proof.
  apply (accepted_run_writes_the_document [row_of 50] [0]
           [talk_entry (row_of 50) 0 565 625]
           (console [" Yes "; "more"]) " Yes " ["more"]);
    reflexivity.
Defined.



(** ** The answers that count as yes *)

Lemma code_points_cons (c : ascii) (s : string) :
  code_points (String c s)
  = match code_points s with
    | String d chunk :: more =>
      if is_continuation d then String c (String d chunk) :: more
      else String c EmptyString :: String d chunk :: more
    | more => String c EmptyString :: more
    end.
Proof. reflexivity. Qed.

(** The first chunk holds the first byte and continuation bytes; the
    chunks after it are whole characters. *)
Lemma code_points_shape (s : string) :
  forall c,
  exists tail more,
    code_points (String c s) = String c tail :: more
    /\ all_continuation tail = true
    /\ forallb proper more = true.
Proof.
  induction s as [|d s IH]; intros c.
  - exists "", []. now split.
  - destruct (IH d) as (tail & more & E & T & M).
    rewrite code_points_cons, E.
    destruct (is_continuation d) eqn:D.
    + exists (String d tail), more. repeat split; auto.
      cbn [all_continuation]. now rewrite D.
    + exists "", (String d tail :: more). repeat split; auto.
      cbn [forallb proper]. now rewrite D, T.
Qed.

Lemma code_points_proper (s : string) :
  clean_start s = true -> forallb proper (code_points s) = true.
Proof.
  destruct s as [|c s]; [reflexivity|]. cbn [clean_start]. intros C.
  destruct (code_points_shape s c) as (tail & more & -> & T & M).
  cbn [forallb proper]. now rewrite C, T.
Qed.

(** Cutting a text into characters loses nothing. *)
Lemma concat_code_points (s : string) :
  String.concat "" (code_points s) = s.
Proof.
  induction s as [|c s IH]; [reflexivity|].
  rewrite code_points_cons.
  destruct (code_points s) as [|[|d chunk] more].
  - cbn in IH. now subst s.
  - rewrite concat_cons. cbn [append]. now rewrite IH.
  - rewrite concat_cons in IH. destruct (is_continuation d).
    + rewrite concat_cons. cbn [append]. cbn [append] in IH.
      now rewrite IH.
    + rewrite concat_cons. cbn [append]. rewrite concat_cons.
      now rewrite IH.
Qed.

Lemma code_points_continuation (s : string) :
  forall d,
    is_continuation d = true -> all_continuation s = true ->
    code_points (String d s) = [String d s].
Proof.
  induction s as [|e s IH]; intros d D A; [reflexivity|].
  cbn [all_continuation] in A. apply andb_true_iff in A as [E A].
  rewrite code_points_cons, (IH e E A). now rewrite E.
Qed.

Lemma code_points_one (ch : string) :
  proper ch = true -> code_points ch = [ch].
Proof.
  destruct ch as [|c tail]; [discriminate|]. cbn [proper]. intros P.
  apply andb_true_iff in P as [_ A].
  destruct tail as [|d tail]; [reflexivity|].
  cbn [all_continuation] in A. apply andb_true_iff in A as [D A].
  rewrite code_points_cons, (code_points_continuation tail d D A).
  now rewrite D.
Qed.

Lemma concat_proper_clean (l : list string) :
  forallb proper l = true -> clean_start (String.concat "" l) = true.
Proof.
  destruct l as [|ch l]; [reflexivity|]. cbn [forallb]. intros P.
  apply andb_true_iff in P as [P _]. rewrite concat_cons.
  destruct ch as [|c tail]; [discriminate|].
  cbn [proper] in P. apply andb_true_iff in P as [C _]. exact C.
Qed.

(** Whole characters put end to end are cut back into themselves. *)
Lemma code_points_concat (l : list string) :
  forallb proper l = true -> code_points (String.concat "" l) = l.
Proof.
  induction l as [|ch l IH]; [reflexivity|]. cbn [forallb]. intros P.
  apply andb_true_iff in P as [P Pl].
  rewrite concat_cons, code_points_app by now apply concat_proper_clean.
  now rewrite (code_points_one ch P), (IH Pl).
Qed.

Lemma concat_app (l1 l2 : list string) :
  String.concat "" (l1 ++ l2)
  = String.concat "" l1 +++ String.concat "" l2.
Proof.
  induction l1 as [|x l1 IH]; [reflexivity|].
  cbn [List.app]. now rewrite !concat_cons, IH, append_assoc.
Qed.

Lemma drop_while_split {A : Type} (p : A -> bool) (l : list A) :
  exists dropped,
    l = dropped ++ drop_while p l /\ forallb p dropped = true.
Proof.
  induction l as [|x l (d & E & F)]; [now exists []|].
  cbn [drop_while]. destruct (p x) eqn:Px.
  - exists (x :: d). cbn [List.app forallb]. rewrite Px, F, <- E. now split.
  - now exists [].
Qed.

Lemma drop_while_app {A : Type} (p : A -> bool) (l1 l2 : list A) :
  forallb p l1 = true -> drop_while p (l1 ++ l2) = drop_while p l2.
Proof.
  induction l1 as [|x l1 IH]; [reflexivity|]. cbn [forallb]. intros F.
  apply andb_true_iff in F as [Px F]. cbn [List.app drop_while].
  rewrite Px. now apply IH.
Qed.

Lemma forallb_rev {A : Type} (p : A -> bool) (l : list A) :
  forallb p (List.rev l) = forallb p l.
Proof.
  induction l as [|x l IH]; [reflexivity|].
  cbn [List.rev forallb]. rewrite forallb_app, IH. cbn [forallb].
  now rewrite andb_true_r, andb_comm.
Qed.

Lemma lower_ascii_yes (c : ascii) :
  (lower_ascii c = "y"%char -> c = "y"%char \/ c = "Y"%char)
  /\ (lower_ascii c = "e"%char -> c = "e"%char \/ c = "E"%char)
  /\ (lower_ascii c = "s"%char -> c = "s"%char \/ c = "S"%char).
Proof.
  destruct c as [[] [] [] [] [] [] [] []];
    repeat split; intros H; try discriminate H; auto.
Qed.

Lemma lower_yes_words (word : string) :
  lower word = "yes" <-> In word yes_words.
Proof.
  split.
  - destruct word as [|y [|e [|s [|x word]]]]; try discriminate.
    cbn [lower]. intros [= Hy He Hs].
    apply lower_ascii_yes in Hy, He, Hs.
    destruct Hy as [->| ->]; destruct He as [->| ->];
      destruct Hs as [->| ->]; cbn; tauto.
  - cbn. intros H.
    repeat (destruct H as [<-|H]; [reflexivity|]). destruct H.
Qed.

Lemma code_points_single (c : ascii) (s : string) :
  clean_start s = true ->
  code_points (String c s) = String c "" :: code_points s.
Proof.
  intros C. change (String c s) with (String c "" +++ s).
  now rewrite code_points_app.
Qed.

(** Stripping removes the blank text around three one-byte characters
    whose first and last are not white space. *)
Lemma strip_padded (pre post : string) (a b c : ascii) :
  blank pre = true -> blank post = true -> clean_start post = true ->
  is_continuation a = false -> is_continuation b = false ->
  is_continuation c = false ->
  isspace (String a "") = false -> isspace (String c "") = false ->
  strip (pre +++ String a (String b (String c "")) +++ post)
  = String a (String b (String c "")).
Proof.
  intros Bpre Bpost Cpost Ca Cb Cc Sa Sc. unfold strip, blank in *.
  cbn [append].
  assert (code_points (String a (String b (String c post)))
          = String a "" :: String b "" :: String c "" :: code_points post)
    as E.
  { rewrite !code_points_single; auto; cbn [clean_start].
    - now rewrite Cc.
    - now rewrite Cb. }
  rewrite code_points_app by (cbn [clean_start]; now rewrite Ca).
  rewrite E, drop_while_app by exact Bpre.
  cbn [drop_while]. rewrite Sa. cbn [List.rev]. rewrite <- !app_assoc.
  rewrite drop_while_app by (now rewrite forallb_rev).
  cbn [List.app drop_while]. rewrite Sc. reflexivity.
Qed.

(** X17. The answers that count as yes are exactly those made of white
    space, then the word yes in any mix of upper and lower case, then
    white space (either white space may be empty).  White space is any
    run of the characters Python's [strip] removes. *)
Theorem answers_that_count_as_yes :
  forall line,
    clean_start line = true ->
    (lower (strip line) = "yes"
     <-> exists pre word post,
           line = pre +++ word +++ post
           /\ In word yes_words
           /\ blank pre = true
           /\ blank post = true
           /\ clean_start post = true).
Proof.
  intros line Cl. split.
  - intros Y.
    pose proof (code_points_proper line Cl) as P.
    destruct (drop_while_split isspace (code_points line))
      as (front & E1 & F1).
    set (kept := drop_while isspace (code_points line)) in *.
    destruct (drop_while_split isspace (List.rev kept)) as (back & E2 & F2).
    set (middle := drop_while isspace (List.rev kept)) in *.
    assert (kept = List.rev middle ++ List.rev back) as E3
      by (rewrite <- rev_app_distr, <- E2; now rewrite rev_involutive).
    assert (strip line = String.concat "" (List.rev middle)) as S
      by reflexivity.
    rewrite E3 in E1. rewrite E1, !forallb_app in P.
    apply andb_true_iff in P as [Pf P].
    apply andb_true_iff in P as [_ Pb].
    exists (String.concat "" front), (strip line),
      (String.concat "" (List.rev back)).
    split; [|split; [|split; [|split]]].
    + rewrite S, <- !concat_app, <- E1. symmetry.
      apply concat_code_points.
    + now apply lower_yes_words.
    + unfold blank. now rewrite code_points_concat.
    + unfold blank. rewrite code_points_concat by exact Pb.
      now rewrite forallb_rev.
    + now apply concat_proper_clean.
  - intros (pre & word & post & -> & W & Bpre & Bpost & Cpost).
    assert (strip (pre +++ word +++ post) = word) as S.
    { cbn in W.
      repeat (destruct W as [<-|W];
              [now apply strip_padded|]).
      destruct W. }
    rewrite S. now apply lower_yes_words.
Qed.

Lemma answers_that_count_as_yes_witness :
  lower (strip ("  " +++ "YeS" +++ " ")) = "yes"
  /\ exists pre word post,
       " yes" = pre +++ word +++ post
       /\ In word yes_words
       /\ blank pre = true
       /\ blank post = true
       /\ clean_start post = true.
Proof.
  split.
  - apply (proj2 (answers_that_count_as_yes ("  " +++ "YeS" +++ " ")
                    eq_refl)).
    exists "  ", "YeS", " ". repeat split. cbn. tauto.
  - apply (proj1 (answers_that_count_as_yes " yes" eq_refl)).
    vm_compute. reflexivity.
Defined.

(** * Further edge behaviour *)

(** ** The renderer's text and file *)





(** ** Durations are not checked *)

(** X19. A row whose duration is -10 or less gives a slot of no length or
    of negative length.  Such a talk never brings a break with it: the
    iteration appends the talk alone, ending at or before its own start,
    and the clock does not advance. *)
Theorem non_positive_slot_inserts_no_break :
  forall df schedule current_time idx row,
    iloc df idx = Ok row ->
    TIME row + 10 <= 0 ->
    Datetime.in_range (current_time + (TIME row + 10)) = true ->
    let talk :=
      talk_entry row idx current_time (current_time + (TIME row + 10)) in
    loop_body df (schedule, current_time) idx
    = Ok (schedule ++ [talk], current_time + (TIME row + 10))
    /\ End_ talk <= Start talk.
Proof.
  intros df schedule current_time idx row I S R talk.
  rewrite loop_body_eq, I.
  unfold iteration_in_range, iteration_spec, lunch_rule, coffee_rule.
  cbn [fst snd]. set (slot := TIME row + 10) in *.
  destruct (break_rule_inserts "--- Lunch Break ---" LUNCH_START LUNCH_END
              current_time slot) as [(L1 & L2 & _)|(_ & _ & L3)]; [|lia].
  rewrite L1, L2.
  destruct (break_rule_inserts "--- Coffee Break ---" COFFEE_START
              COFFEE_END current_time slot) as [(C1 & C2 & _)|(_ & _ & C3)];
    [|lia].
  rewrite C1, C2, R. cbn [andb List.app]. split; [reflexivity|].
  subst talk. cbn [Start End_ talk_entry]. lia.
Qed.

Lemma non_positive_slot_inserts_no_break_witness :
  loop_body [row_of (-30)] ([], Datetime.strptime_HM 12 0) 0
  = Ok ([talk_entry (row_of (-30)) 0 (Datetime.strptime_HM 12 0)
           (Datetime.strptime_HM 11 40)],
        Datetime.strptime_HM 11 40)
  /\ End_ (talk_entry (row_of (-30)) 0 (Datetime.strptime_HM 12 0)
             (Datetime.strptime_HM 11 40))
     <= Start (talk_entry (row_of (-30)) 0 (Datetime.strptime_HM 12 0)
                 (Datetime.strptime_HM 11 40)).
Proof.
  apply (non_positive_slot_inserts_no_break [row_of (-30)] []
           (Datetime.strptime_HM 12 0) 0 (row_of (-30)));
    [reflexivity|cbn; lia|reflexivity].
Defined.
